(** * update_pkgbuild_keyguard_bin.py: release extraction and PKGBUILD rewriting

    A shallow embedding of [extract_release_info] and [update_pkgbuild] from
    [src/update_pkgbuild_keyguard_bin.py], with the properties of the
    specification proved (or refuted) against it.

    Python [str] values are modelled as [string]; a character is a code point
    below 256, for which the regular-expression class [\d] is exactly the ten
    ASCII digits. *)

From Stdlib Require Import String Ascii List Bool Arith Lia.
Import ListNotations.
Open Scope string_scope.
Open Scope nat_scope.

(* ================================================================= *)
(** ** Characters and strings *)

Definition LF : ascii := "010"%char.
Definition backslash : ascii := "\"%char.

(** The one-character string holding a line feed. *)
Definition nl : string := String LF "".

Definition is_digit (c : ascii) : bool :=
  (48 <=? nat_of_ascii c) && (nat_of_ascii c <=? 57).

Definition is_octdigit (c : ascii) : bool :=
  (48 <=? nat_of_ascii c) && (nat_of_ascii c <=? 55).

Definition is_ascii_letter (c : ascii) : bool :=
  ((65 <=? nat_of_ascii c) && (nat_of_ascii c <=? 90))
  || ((97 <=? nat_of_ascii c) && (nat_of_ascii c <=? 122)).

Definition digit_value (c : ascii) : nat := nat_of_ascii c - 48.

(** [s.startswith(p)] *)
Fixpoint startswith (s p : string) {struct p} : bool :=
  match p with
  | EmptyString => true
  | String c p' =>
      match s with
      | EmptyString => false
      | String d s' => Ascii.eqb c d && startswith s' p'
      end
  end.

(** [s[n:]] *)
Fixpoint drop (n : nat) (s : string) : string :=
  match n with
  | O => s
  | S n' => match s with
            | EmptyString => EmptyString
            | String _ s' => drop n' s'
            end
  end.

(** [s[:n]] *)
Fixpoint take (n : nat) (s : string) : string :=
  match n with
  | O => EmptyString
  | S n' => match s with
            | EmptyString => EmptyString
            | String c s' => String c (take n' s')
            end
  end.

(** [s.endswith(p)] *)
Definition endswith (s p : string) : bool :=
  (String.length p <=? String.length s)
  && String.eqb (drop (String.length s - String.length p) s) p.

(** Every character of [s] satisfies [f]. *)
Fixpoint all_chars (f : ascii -> bool) (s : string) : bool :=
  match s with
  | EmptyString => true
  | String c s' => f c && all_chars f s'
  end.

(** [s.split("\n")]: the lines of a text; never the empty list. *)
Fixpoint lines (s : string) : list string :=
  match s with
  | EmptyString => [EmptyString]
  | String c s' =>
      if Ascii.eqb c LF then EmptyString :: lines s'
      else match lines s' with
           | l :: ls => String c l :: ls
           | [] => [String c EmptyString]
           end
  end.

(** ["\n".join(ls)] *)
Fixpoint join (ls : list string) : string :=
  match ls with
  | [] => EmptyString
  | [l] => l
  | l :: ls' => l ++ nl ++ join ls'
  end.

(* ================================================================= *)
(** ** Exceptions *)

Inductive exn : Type :=
| ValueError (msg : string)
| KeyError (key : string)
| AttributeError  (* a method looked up on [None] *)
| ReError.  (* re.error / IndexError raised while compiling a replacement template *)

Inductive result (A : Type) : Type :=
| Ok (a : A)
| Raise (e : exn).

Arguments Ok {A} a.
Arguments Raise {A} e.

Definition bind {A B : Type} (r : result A) (k : A -> result B) : result B :=
  match r with
  | Ok a => k a
  | Raise e => Raise e
  end.

Notation "x <- r ;; k" := (bind r (fun x => k))
  (at level 61, r at next level, right associativity).

(* ================================================================= *)
(** ** The regular expressions of the script *)

(** *** [re.search(r"Keyguard-(\d+\.\d+\.\d+)-linux", name)] *)

(** The longest run of digits at the start of [s], and what follows it: the
    greedy [\d+].  In the pattern every [\d+] is followed by a literal that
    is not a digit, so giving back digits can never make a match succeed. *)
Fixpoint span_digits (s : string) : string * string :=
  match s with
  | EmptyString => (EmptyString, EmptyString)
  | String c s' =>
      if is_digit c
      then let (d, r) := span_digits s' in (String c d, r)
      else (EmptyString, s)
  end.

Definition digits1 (s : string) : option (string * string) :=
  match span_digits s with
  | (EmptyString, _) => None
  | (d, r) => Some (d, r)
  end.

Definition strip_prefix (p s : string) : option string :=
  if startswith s p then Some (drop (String.length p) s) else None.

Definition obind {A B : Type} (o : option A) (k : A -> option B) : option B :=
  match o with
  | Some a => k a
  | None => None
  end.

Notation "'let?' x := o 'in' k" := (obind o (fun x => k))
  (at level 10, x pattern, o at level 100, k at level 200).

(** The pattern matched at the very start of [s]; the result is group 1. *)
Definition match_version_here (s : string) : option string :=
  let? r0 := strip_prefix "Keyguard-" s in
  let? (x, r1) := digits1 r0 in
  let? r2 := strip_prefix "." r1 in
  let? (y, r3) := digits1 r2 in
  let? r4 := strip_prefix "." r3 in
  let? (z, r5) := digits1 r4 in
  let? _ := strip_prefix "-linux" r5 in
  Some (x ++ "." ++ y ++ "." ++ z).

(** [re.search] tries every start position from left to right and returns
    the first match. *)
Fixpoint re_search_version (s : string) : option string :=
  match match_version_here s with
  | Some v => Some v
  | None =>
      match s with
      | EmptyString => None
      | String _ s' => re_search_version s'
      end
  end.

(** *** Line patterns [^prefix.+suffix$] under [re.MULTILINE]

    With [re.MULTILINE], [^] matches at the start of the text and after each
    line feed, [$] at the end of the text and before each line feed, and [.]
    never matches a line feed.  The literal parts hold no line feed, so a
    match is always one whole line: a line that starts with the prefix, ends
    with the suffix and has at least one character between them. *)

Record line_re : Type := { re_prefix : string; re_suffix : string }.

Definition pkgver_re : line_re := {| re_prefix := "pkgver="; re_suffix := "" |}.
Definition pkgrel_re : line_re := {| re_prefix := "pkgrel="; re_suffix := "" |}.
Definition releaseTag_re : line_re :=
  {| re_prefix := "_releaseTag="; re_suffix := "" |}.
Definition sha256sums_x86_64_re : line_re :=
  {| re_prefix := "sha256sums_x86_64=("; re_suffix := ")" |}.
Definition sha256sums_aarch64_re : line_re :=
  {| re_prefix := "sha256sums_aarch64=("; re_suffix := ")" |}.

Definition fullmatch (p : line_re) (l : string) : bool :=
  startswith l (re_prefix p) && endswith l (re_suffix p)
  && (String.length (re_prefix p) + 1 + String.length (re_suffix p)
      <=? String.length l).

(** The text matched by [.+] in a matching line. *)
Definition dotplus (p : line_re) (l : string) : string :=
  take (String.length l - String.length (re_prefix p) - String.length (re_suffix p))
       (drop (String.length (re_prefix p)) l).

(** [re.search(p, content, re.MULTILINE)]: the [.+] part of the first
    matching line. *)
Definition re_search (p : line_re) (content : string) : option string :=
  match find (fullmatch p) (lines content) with
  | Some l => Some (dotplus p l)
  | None => None
  end.

(** *** Replacement templates

    [re.subn] treats its replacement string as a template: [parse_template]
    of CPython's [re/_parser.py] (3.12 and later), for a pattern without
    groups.  A backslash starts an escape:
    - [\g<0>] (any all-zero decimal name) stands for the whole match; every
      other [\g] form raises;
    - [\0], [\0o], [\0oo] and [\ooo] are octal character codes, at most 0o377;
      any other digit escape is a reference to a group that does not exist;
    - [\a \b \f \n \r \t \v \\] are the usual characters; any other ASCII
      letter raises; any other character keeps the backslash. *)

Inductive tpl_item : Type :=
| TLit (c : ascii)
| TGroup0.

Inductive tpl_mode : Type :=
| MText
| MName (seen : bool).

Definition escape_char (c : ascii) : option ascii :=
  if Ascii.eqb c "a" then Some "007"%char
  else if Ascii.eqb c "b" then Some "008"%char
  else if Ascii.eqb c "f" then Some "012"%char
  else if Ascii.eqb c "n" then Some LF
  else if Ascii.eqb c "r" then Some "013"%char
  else if Ascii.eqb c "t" then Some "009"%char
  else if Ascii.eqb c "v" then Some "011"%char
  else if Ascii.eqb c backslash then Some backslash
  else None.

Definition tcons (i : tpl_item) (r : option (list tpl_item))
  : option (list tpl_item) :=
  option_map (cons i) r.

Fixpoint parse_template_from (m : tpl_mode) (s : string)
  : option (list tpl_item) :=
  match m with
  | MName seen =>
      match s with
      | EmptyString => None
      | String c r =>
          if Ascii.eqb c ">" then
            if seen then tcons TGroup0 (parse_template_from MText r) else None
          else if Ascii.eqb c "0" then parse_template_from (MName true) r
          else None
      end
  | MText =>
      match s with
      | EmptyString => Some []
      | String c r =>
          if negb (Ascii.eqb c backslash) then
            tcons (TLit c) (parse_template_from MText r)
          else
            match r with
            | EmptyString => None
            | String e r1 =>
                if Ascii.eqb e "g" then
                  match r1 with
                  | String lt r2 =>
                      if Ascii.eqb lt "<"
                      then parse_template_from (MName false) r2
                      else None
                  | EmptyString => None
                  end
                else if Ascii.eqb e "0" then
                  match r1 with
                  | String d1 r2 =>
                      if is_octdigit d1 then
                        match r2 with
                        | String d2 r3 =>
                            if is_octdigit d2 then
                              tcons (TLit (ascii_of_nat
                                             (8 * digit_value d1 + digit_value d2)))
                                    (parse_template_from MText r3)
                            else
                              tcons (TLit (ascii_of_nat (digit_value d1)))
                                    (parse_template_from MText r2)
                        | EmptyString =>
                            tcons (TLit (ascii_of_nat (digit_value d1)))
                                  (parse_template_from MText r2)
                        end
                      else tcons (TLit zero) (parse_template_from MText r1)
                  | EmptyString => tcons (TLit zero) (parse_template_from MText r1)
                  end
                else if is_digit e then
                  match r1 with
                  | String d1 (String d2 r3) =>
                      if is_octdigit e && is_octdigit d1 && is_octdigit d2 then
                        let v := 64 * digit_value e + 8 * digit_value d1
                                 + digit_value d2 in
                        if v <=? 255
                        then tcons (TLit (ascii_of_nat v))
                                   (parse_template_from MText r3)
                        else None
                      else None
                  | _ => None
                  end
                else
                  match escape_char e with
                  | Some ch => tcons (TLit ch) (parse_template_from MText r1)
                  | None =>
                      if is_ascii_letter e then None
                      else tcons (TLit backslash)
                                 (tcons (TLit e) (parse_template_from MText r1))
                  end
            end
      end
  end.

Definition parse_template (repl : string) : option (list tpl_item) :=
  parse_template_from MText repl.

(** The replacement text for one match [m]. *)
Fixpoint expand_template (t : list tpl_item) (m : string) : string :=
  match t with
  | [] => EmptyString
  | TLit c :: t' => String c (expand_template t' m)
  | TGroup0 :: t' => m ++ expand_template t' m
  end.

(** *** [re.subn(p, repl, content, flags=re.MULTILINE)]

    No [count] is passed, so every match is replaced; the second component
    is the number of replacements made. *)

Definition sub_line (p : line_re) (t : list tpl_item) (l : string) : string :=
  if fullmatch p l then expand_template t l else l.

(** The text after every matching line has been replaced. *)
Definition sub_text (p : line_re) (t : list tpl_item) (content : string)
  : string :=
  join (map (sub_line p t) (lines content)).

Definition re_subn (p : line_re) (repl content : string)
  : result (string * nat) :=
  match parse_template repl with
  | None => Raise ReError
  | Some t =>
      Ok (sub_text p t content,
          List.length (filter (fullmatch p) (lines content)))
  end.

(* ================================================================= *)
(** ** Release records *)

(** The value found at the key [digest] of an asset: a string, or the
    [null] that the release service gives for assets without a digest
    ([None] after [json.loads]). *)
Inductive jvalue : Type :=
| JNull
| JStr (s : string).

(** An asset of a release: a mapping read with [asset.get("name", "")] and
    [asset.get("digest", "")]; [None] is an absent key.  A name that is
    there is a string; a digest that is there is a string or [null]. *)
Record asset : Type := { name : option string; digest : option jvalue }.

(** The release payload, read with [release.get("tag_name")] and
    [release.get("assets", [])]. *)
Record release : Type :=
  { tag_name : option string; assets : option (list asset) }.

(** [d.get(key, "")] *)
Definition get_default (o : option string) : string :=
  match o with
  | Some s => s
  | None => EmptyString
  end.

(** [asset["name"]] *)
Definition getitem_name (a : asset) : result string :=
  match name a with
  | Some n => Ok n
  | None => Raise (KeyError "name")
  end.

Definition x86_64_suffix : string := "-linux-x86_64.tar.gz".
Definition aarch64_suffix : string := "-linux-aarch64.tar.gz".

(** [asset.get("name", "").endswith(...)] *)
Definition is_x86_64 (a : asset) : bool :=
  endswith (get_default (name a)) x86_64_suffix.
Definition is_aarch64 (a : asset) : bool :=
  endswith (get_default (name a)) aarch64_suffix.

(** One turn of the loop over the assets; the state is the pair
    [(x86_64_asset, aarch64_asset)]. *)
Definition scan_asset (st : option asset * option asset) (a : asset)
  : option asset * option asset :=
  if is_x86_64 a then (Some a, snd st)
  else if is_aarch64 a then (fst st, Some a)
  else st.

Definition find_linux_assets (l : list asset) : option asset * option asset :=
  fold_left scan_asset l (None, None).

(** [asset.get("digest", "")] *)
Definition get_digest (a : asset) : jvalue :=
  match digest a with
  | Some v => v
  | None => JStr EmptyString
  end.

(** The inner function [extract_sha256]; [digest.startswith] on [None]
    raises [AttributeError]. *)
Definition extract_sha256 (a : asset) : result string :=
  match get_digest a with
  | JNull => Raise AttributeError
  | JStr d =>
      if negb (startswith d "sha256:") then
        n <- getitem_name a ;;
        Raise (ValueError ("SHA256 digest not found for asset: " ++ n))
      else Ok (drop 7 d)
  end.

(** The extracted tuple [(version, release_tag, sha256_x86_64, sha256_aarch64)]. *)
Definition release_info : Type := (string * string * string * string)%type.

(** [release.get("assets", [])] *)
Definition get_assets (r : release) : list asset :=
  match assets r with
  | Some l => l
  | None => []
  end.

Definition extract_release_info (r : release) : result release_info :=
  match tag_name r with
  | None | Some EmptyString =>
      Raise (ValueError "Release tag not found in API response")
  | Some release_tag =>
      match get_assets r with
      | [] => Raise (ValueError "No assets found in release")
      | l =>
          match find_linux_assets l with
          | (None, _) =>
              Raise (ValueError "Linux x86_64 artifact not found in release")
          | (Some _, None) =>
              Raise (ValueError "Linux aarch64 artifact not found in release")
          | (Some x86_64_asset, Some aarch64_asset) =>
              n <- getitem_name x86_64_asset ;;
              match re_search_version n with
              | None =>
                  Raise (ValueError
                           ("Could not extract version from asset name: " ++ n))
              | Some version =>
                  sha256_x86_64 <- extract_sha256 x86_64_asset ;;
                  sha256_aarch64 <- extract_sha256 aarch64_asset ;;
                  Ok (version, release_tag, sha256_x86_64, sha256_aarch64)
              end
          end
      end
  end.

(* ================================================================= *)
(** ** Rewriting the PKGBUILD *)

(** One [re.subn] followed by [if count == 0: raise ValueError(...)]. *)
Definition substitute (p : line_re) (repl field content : string)
  : result string :=
  rc <- re_subn p repl content ;;
  if snd rc =? 0
  then Raise (ValueError (field ++ " not found in PKGBUILD"))
  else Ok (fst rc).

Definition update_pkgbuild
  (content version release_tag sha256_x86_64 sha256_aarch64 : string)
  : result string :=
  match re_search pkgver_re content with
  | None => Raise (ValueError "pkgver not found in PKGBUILD")
  | Some current_version =>
      new_content <- substitute pkgver_re ("pkgver=" ++ version) "pkgver" content ;;
      new_content <-
        (if negb (String.eqb current_version version)
         then substitute pkgrel_re "pkgrel=1" "pkgrel" new_content
         else Ok new_content) ;;
      new_content <-
        substitute releaseTag_re ("_releaseTag='" ++ release_tag ++ "'")
                   "_releaseTag" new_content ;;
      new_content <-
        substitute sha256sums_x86_64_re
                   ("sha256sums_x86_64=('" ++ sha256_x86_64 ++ "')")
                   "sha256sums_x86_64" new_content ;;
      substitute sha256sums_aarch64_re
                 ("sha256sums_aarch64=('" ++ sha256_aarch64 ++ "')")
                 "sha256sums_aarch64" new_content
  end.

(* ================================================================= *)
(** ** Notions used to state the properties *)

(** A non-empty run of digits: what [\d+] matches in full. *)
Definition is_number (s : string) : bool :=
  negb (String.eqb s "") && all_chars is_digit s.

Definition version_text (x y z : string) : string := x ++ "." ++ y ++ "." ++ z.

(** [v] matches [\d+\.\d+\.\d+] in full. *)
Definition is_version (v : string) : Prop :=
  exists x y z, v = version_text x y z
                /\ is_number x = true /\ is_number y = true /\ is_number z = true.

(** [Keyguard-v-linux], with [v] a version, occurs in [n] at offset [k]. *)
Definition occurs_at (n : string) (k : nat) (v : string) : Prop :=
  exists pre post,
    n = pre ++ "Keyguard-" ++ v ++ "-linux" ++ post
    /\ String.length pre = k /\ is_version v.

(** [v] is the version of the leftmost occurrence in [n]. *)
Definition first_version (n v : string) : Prop :=
  exists k, occurs_at n k v /\ forall k' v', occurs_at n k' v' -> k <= k'.

(** [a] is the last asset of [l] with an x86_64 name and [b] the last one
    with an aarch64 name. *)
Definition last_linux_assets (l : list asset) (a b : asset) : Prop :=
  exists xs ys, filter is_x86_64 l = (xs ++ [a])%list
                /\ filter is_aarch64 l = (ys ++ [b])%list.

(** The digest of [a] is a string that starts with [sha256:]. *)
Definition sha256_digest (a : asset) : bool :=
  match get_digest a with
  | JStr d => startswith d "sha256:"
  | JNull => false
  end.

(** The ways a release payload can be unusable, as the specification lists
    them. *)
Inductive malformed (r : release) : Prop :=
| tag_missing :
    get_default (tag_name r) = "" -> malformed r
| assets_missing :
    get_assets r = [] -> malformed r
| x86_64_missing :
    filter is_x86_64 (get_assets r) = [] -> malformed r
| aarch64_missing :
    filter is_aarch64 (get_assets r) = [] -> malformed r
| version_unmatched (a b : asset) :
    last_linux_assets (get_assets r) a b ->
    (forall k v, ~ occurs_at (get_default (name a)) k v) -> malformed r
| digest_malformed (a b : asset) :
    last_linux_assets (get_assets r) a b ->
    sha256_digest a = false \/ sha256_digest b = false ->
    malformed r.

Definition is_hexdigit (c : ascii) : bool :=
  is_digit c
  || ((97 <=? nat_of_ascii c) && (nat_of_ascii c <=? 102))
  || ((65 <=? nat_of_ascii c) && (nat_of_ascii c <=? 70)).

(** A 64-character hexadecimal string. *)
Definition is_sha256_hex (s : string) : bool :=
  (String.length s =? 64) && all_chars is_hexdigit s.

Definition no_lf (s : string) : bool :=
  all_chars (fun c => negb (Ascii.eqb c LF)) s.

(** A string without line feed and without backslash: as a replacement
    template it stands for itself, and it stays on one line. *)
Definition plain (s : string) : bool :=
  all_chars (fun c => negb (Ascii.eqb c LF) && negb (Ascii.eqb c backslash)) s.

(** The five fields of the manifest, in the order they are rewritten. *)
Inductive field : Type :=
| Pkgver | Pkgrel | ReleaseTag | Sha256sums_x86_64 | Sha256sums_aarch64.

Definition all_fields : list field :=
  [Pkgver; Pkgrel; ReleaseTag; Sha256sums_x86_64; Sha256sums_aarch64].

Definition field_re (f : field) : line_re :=
  match f with
  | Pkgver => pkgver_re
  | Pkgrel => pkgrel_re
  | ReleaseTag => releaseTag_re
  | Sha256sums_x86_64 => sha256sums_x86_64_re
  | Sha256sums_aarch64 => sha256sums_aarch64_re
  end.

Definition field_name (f : field) : string :=
  match f with
  | Pkgver => "pkgver"
  | Pkgrel => "pkgrel"
  | ReleaseTag => "_releaseTag"
  | Sha256sums_x86_64 => "sha256sums_x86_64"
  | Sha256sums_aarch64 => "sha256sums_aarch64"
  end.

Definition field_index (f : field) : nat :=
  match f with
  | Pkgver => 0
  | Pkgrel => 1
  | ReleaseTag => 2
  | Sha256sums_x86_64 => 3
  | Sha256sums_aarch64 => 4
  end.

Definition not_found (f : field) : exn :=
  ValueError (field_name f ++ " not found in PKGBUILD").

(** The lines of [content] that match the pattern of field [f]. *)
Definition field_lines (f : field) (content : string) : list string :=
  filter (fullmatch (field_re f)) (lines content).

Definition absent (f : field) (content : string) : bool :=
  match field_lines f content with
  | [] => true
  | _ => false
  end.

(** Replacing a matching line by a fixed text. *)
Definition replace_line (p : line_re) (r l : string) : string :=
  if fullmatch p l then r else l.

(** A line that matches none of the five patterns. *)
Definition other_line (l : string) : bool :=
  forallb (fun f => negb (fullmatch (field_re f) l)) all_fields.

(** The manifest invariant of the specification: each field on exactly one
    line. *)
Definition well_formed (content : string) : Prop :=
  forall f, List.length (field_lines f content) = 1.

(** The version changes: the value of the first [pkgver] line differs from
    the new version (or there is no such line). *)
Definition version_changes (content version : string) : bool :=
  match field_lines Pkgver content with
  | l :: _ => negb (String.eqb (drop 7 l) version)
  | [] => true
  end.

(** Field [f] is looked for by [update_pkgbuild]: [pkgrel] only when the
    version changes. *)
Definition required (content version : string) (f : field) : bool :=
  match f with
  | Pkgrel => version_changes content version
  | _ => true
  end.

(** The text a line of field [f] is rewritten to. *)
Definition new_line (reset : bool) (version release_tag sha256_x86_64
                                      sha256_aarch64 : string)
                    (f : field) (l : string) : string :=
  match f with
  | Pkgver => "pkgver=" ++ version
  | Pkgrel => if reset then "pkgrel=1" else l
  | ReleaseTag => "_releaseTag='" ++ release_tag ++ "'"
  | Sha256sums_x86_64 => "sha256sums_x86_64=('" ++ sha256_x86_64 ++ "')"
  | Sha256sums_aarch64 => "sha256sums_aarch64=('" ++ sha256_aarch64 ++ "')"
  end.

(** One pass over the lines: the manifest update as the specification
    describes it, a line-by-line rewriting of the five fields. *)
Definition rewrite_line (reset : bool) (version release_tag sha256_x86_64
                                          sha256_aarch64 : string)
                        (l : string) : string :=
  match find (fun f => fullmatch (field_re f) l) all_fields with
  | Some f => new_line reset version release_tag sha256_x86_64 sha256_aarch64 f l
  | None => l
  end.

Definition update_by_lines
  (content version release_tag sha256_x86_64 sha256_aarch64 : string)
  : result string :=
  match find (fun f => required content version f && absent f content)
             all_fields with
  | Some f => Raise (not_found f)
  | None =>
      Ok (join (map (rewrite_line (version_changes content version) version
                                  release_tag sha256_x86_64 sha256_aarch64)
                    (lines content)))
  end.

(* ================================================================= *)
(** ** The entry point *)

(** What [main] asks of its environment: the text of a file
    ([open(path, "r", encoding="utf-8").read()]), the latest release
    ([fetch_latest_release()], one HTTP GET followed by [json.loads]) and
    the writing of a file ([open(path, "w", encoding="utf-8").write(text)]).
    The environment is left abstract.  [None] stands for a raised exception;
    a write returns the world it leaves behind and whether it completed.
    The fetched payload is taken to have the shape of [release]; printing
    is taken not to fail.  The two paths are the parsed command-line
    arguments. *)
Class Env : Type := {
  world : Type;
  read_text : world -> string -> option string;
  fetch_latest_release : world -> option release;
  write_text : world -> string -> string -> world * bool
}.

(** The exceptions that can leave [main]. *)
Inductive uncaught : Type :=
| ReadError (path : string)
| FetchError
| Raised (e : exn)
| WriteError (path : string).

Section Program.

Context {E : Env}.

(** The world and the lines printed so far. *)
Record state : Type := { st_world : world; st_stdout : list string }.

Definition prog (A : Type) : Type := state -> (A + uncaught) * state.

Definition ret {A : Type} (a : A) : prog A := fun st => (inl a, st).

Definition pbind {A B : Type} (m : prog A) (k : A -> prog B) : prog B :=
  fun st =>
    match m st with
    | (inl a, st') => k a st'
    | (inr e, st') => (inr e, st')
    end.

Definition print (s : string) : prog unit :=
  fun st =>
    (inl tt, {| st_world := st_world st; st_stdout := st_stdout st ++ [s] |}).

Definition open_read (path : string) : prog string :=
  fun st =>
    match read_text (st_world st) path with
    | Some text => (inl text, st)
    | None => (inr (ReadError path), st)
    end.

Definition fetch : prog release :=
  fun st =>
    match fetch_latest_release (st_world st) with
    | Some r => (inl r, st)
    | None => (inr FetchError, st)
    end.

Definition call {A : Type} (r : result A) : prog A :=
  fun st =>
    match r with
    | Ok a => (inl a, st)
    | Raise e => (inr (Raised e), st)
    end.

Definition open_write (path text : string) : prog unit :=
  fun st =>
    let (w, completed) := write_text (st_world st) path text in
    (if completed then inl tt else inr (WriteError path),
     {| st_world := w; st_stdout := st_stdout st |}).

Notation "x <~ m ;; k" := (pbind m (fun x => k))
  (at level 61, m at next level, right associativity).

Definition main (input output : string) : prog nat :=
  _ <~ print ("Reading PKGBUILD from: " ++ input) ;;
  content <~ open_read input ;;
  _ <~ print "Fetching latest release from GitHub..." ;;
  release <~ fetch ;;
  info <~ call (extract_release_info release) ;;
  let '(version, release_tag, sha256_x86_64, sha256_aarch64) := info in
  _ <~ print ("  Version: " ++ version) ;;
  _ <~ print ("  Release tag: " ++ release_tag) ;;
  _ <~ print ("  SHA256 (x86_64): " ++ sha256_x86_64) ;;
  _ <~ print ("  SHA256 (aarch64): " ++ sha256_aarch64) ;;
  _ <~ print "Updating PKGBUILD..." ;;
  updated_content <~
    call (update_pkgbuild content version release_tag
                          sha256_x86_64 sha256_aarch64) ;;
  _ <~ print ("Writing updated PKGBUILD to: " ++ output) ;;
  _ <~ open_write output updated_content ;;
  _ <~ print "Done!" ;;
  ret 0.

End Program.

(** A small environment to run [main] in: files as an association list from
    paths to texts, a fixed answer of the network, and a list of paths that
    cannot be written. *)
Fixpoint lookup_file (fs : list (string * string)) (path : string)
  : option string :=
  match fs with
  | [] => None
  | (p, text) :: fs' => if String.eqb p path then Some text else lookup_file fs' path
  end.

Definition file_env (net : option release) (read_only : list string) : Env :=
  {| world := list (string * string);
     read_text := lookup_file;
     fetch_latest_release := fun _ => net;
     write_text := fun fs path text =>
                     if existsb (String.eqb path) read_only
                     then (fs, false)
                     else ((path, text) :: fs, true) |}.

(* ================================================================= *)
(** ** Releases and manifests used as examples *)

Definition hash_a : string :=
  "0123456789abcdef0123456789abcdef0123456789abcdef0123456789abcdef".
Definition hash_b : string :=
  "fedcba9876543210fedcba9876543210fedcba9876543210fedcba9876543210".

Definition asset_x86_64 : asset :=
  {| name := Some "Keyguard-2.3.3-linux-x86_64.tar.gz";
     digest := Some (JStr ("sha256:" ++ hash_a)) |}.
Definition asset_aarch64 : asset :=
  {| name := Some "Keyguard-2.3.3-linux-aarch64.tar.gz";
     digest := Some (JStr ("sha256:" ++ hash_b)) |}.
Definition asset_deb : asset :=
  {| name := Some "Keyguard-2.3.3-linux-amd64.deb";
     digest := Some (JStr "sha256:77") |}.

Definition release_2_3_3 : release :=
  {| tag_name := Some "v2.3.3";
     assets := Some [asset_deb; asset_x86_64; asset_aarch64] |}.

Definition release_no_tag : release :=
  {| tag_name := None; assets := Some [asset_x86_64; asset_aarch64] |}.
Definition release_no_assets : release :=
  {| tag_name := Some "v2.3.3"; assets := None |}.
Definition release_no_x86_64 : release :=
  {| tag_name := Some "v2.3.3"; assets := Some [asset_deb; asset_aarch64] |}.
Definition release_no_aarch64 : release :=
  {| tag_name := Some "v2.3.3"; assets := Some [asset_deb; asset_x86_64] |}.
Definition asset_unversioned : asset :=
  {| name := Some "Keyguard-latest-linux-x86_64.tar.gz";
     digest := Some (JStr ("sha256:" ++ hash_a)) |}.
Definition release_unversioned : release :=
  {| tag_name := Some "v2.3.3";
     assets := Some [asset_unversioned; asset_aarch64] |}.
Definition asset_md5 : asset :=
  {| name := Some "Keyguard-2.3.3-linux-aarch64.tar.gz";
     digest := Some (JStr "md5:d41d8cd98f00b204e9800998ecf8427e") |}.
Definition asset_no_digest : asset :=
  {| name := Some "Keyguard-2.3.3-linux-x86_64.tar.gz"; digest := None |}.
Definition release_no_digest : release :=
  {| tag_name := Some "v2.3.3";
     assets := Some [asset_no_digest; asset_aarch64] |}.
Definition release_md5 : release :=
  {| tag_name := Some "v2.3.3"; assets := Some [asset_x86_64; asset_md5] |}.

(** An asset whose digest is there and is [null], as the API reports it for
    an asset that has no digest. *)
Definition asset_null_digest : asset :=
  {| name := Some "Keyguard-2.3.3-linux-x86_64.tar.gz"; digest := Some JNull |}.
Definition release_null_digest : release :=
  {| tag_name := Some "v2.3.3";
     assets := Some [asset_null_digest; asset_aarch64] |}.

(** Two x86_64 assets, the last of which shows no version. *)
Definition release_unversioned_last : release :=
  {| tag_name := Some "v2.3.3";
     assets := Some [asset_x86_64; asset_unversioned; asset_aarch64] |}.

Definition asset_short_digest : asset :=
  {| name := Some "Keyguard-2.3.3-linux-x86_64.tar.gz";
     digest := Some (JStr "sha256:not-a-hash") |}.
Definition asset_empty_digest : asset :=
  {| name := Some "Keyguard-2.3.3-linux-aarch64.tar.gz";
     digest := Some (JStr "sha256:") |}.
Definition release_odd_digests : release :=
  {| tag_name := Some "v2.3.3";
     assets := Some [asset_short_digest; asset_empty_digest] |}.

Definition asset_x86_64_old : asset :=
  {| name := Some "Keyguard-2.3.2-linux-x86_64.tar.gz";
     digest := Some (JStr "sha256:0000") |}.
Definition asset_aarch64_old : asset :=
  {| name := Some "Keyguard-2.3.2-linux-aarch64.tar.gz";
     digest := None |}.
Definition release_duplicates : release :=
  {| tag_name := Some "v2.3.3";
     assets := Some [asset_x86_64_old; asset_aarch64_old; asset_deb;
                     asset_x86_64; asset_aarch64] |}.

Definition asset_prefixed : asset :=
  {| name := Some "nightly-Keyguard-2.3.3-linux-Keyguard-9.9.9-linux-x86_64.tar.gz";
     digest := Some (JStr ("sha256:" ++ hash_a)) |}.
Definition release_prefixed : release :=
  {| tag_name := Some "v2.3.3"; assets := Some [asset_prefixed; asset_aarch64] |}.

Definition manifest_2_3_2 : string :=
  join ["# Maintainer: someone"; "pkgname=keyguard-bin"; "pkgver=2.3.2";
        "pkgrel=3"; "_releaseTag='v2.3.2'"; "arch=('x86_64' 'aarch64')";
        "sha256sums_x86_64=('old1')"; "sha256sums_aarch64=('old2')"; ""].

Definition manifest_2_3_3 : string :=
  join ["# Maintainer: someone"; "pkgname=keyguard-bin"; "pkgver=2.3.3";
        "pkgrel=1"; "_releaseTag='v2.3.3'"; "arch=('x86_64' 'aarch64')";
        "sha256sums_x86_64=('abc123...')"; "sha256sums_aarch64=('def456...')";
        ""].

Definition manifest_no_pkgrel : string :=
  join ["pkgname=keyguard-bin"; "pkgver=2.3.2"; "_releaseTag='v2.3.2'";
        "sha256sums_x86_64=('old1')"; "sha256sums_aarch64=('old2')"].

Definition manifest_no_x86_64 : string :=
  join ["pkgver=2.3.2"; "pkgrel=3"; "_releaseTag='v2.3.2'";
        "sha256sums_aarch64=('old2')"].

(** A tag that spans three lines, the middle one a checksum line. *)
Definition tag_with_checksum_line : string :=
  join ["v2.3.3"; "sha256sums_x86_64=('x')"; "#"].

(** A release tag that spans two lines. *)
Definition tag_two_lines : string := join ["v2.3.3"; "# rebuilt"].

Definition manifest_once : string :=
  join ["# Maintainer: someone"; "pkgname=keyguard-bin";
        "pkgver=2.3.3"; "pkgrel=1";
        "_releaseTag='v2.3.3"; "# rebuilt'";
        "arch=('x86_64' 'aarch64')";
        "sha256sums_x86_64=('" ++ hash_a ++ "')";
        "sha256sums_aarch64=('" ++ hash_b ++ "')"; ""].

Definition manifest_twice : string :=
  join ["# Maintainer: someone"; "pkgname=keyguard-bin";
        "pkgver=2.3.3"; "pkgrel=1";
        "_releaseTag='v2.3.3"; "# rebuilt'"; "# rebuilt'";
        "arch=('x86_64' 'aarch64')";
        "sha256sums_x86_64=('" ++ hash_a ++ "')";
        "sha256sums_aarch64=('" ++ hash_b ++ "')"; ""].

Definition manifest_two_pkgver : string :=
  join ["pkgver=2.3.2"; "pkgver=0.0.1"; "pkgrel=3"; "_releaseTag='v2.3.2'";
        "sha256sums_x86_64=('old1')"; "sha256sums_aarch64=('old2')"].

Definition manifest_1_0_0 : string :=
  join ["pkgname=keyguard-bin"; "pkgver=1.0.0"; "pkgrel=5";
        "_releaseTag='r1'"; "sha256sums_x86_64=('old1')";
        "sha256sums_aarch64=('old2')"; ""].

(** The line [pkgver=1.0.0] after another [pkgver] line. *)
Definition manifest_1_0_0_second : string :=
  join ["pkgver=0.9.0"; "pkgver=1.0.0"; "pkgrel=5"; "_releaseTag='r1'";
        "sha256sums_x86_64=('old1')"; "sha256sums_aarch64=('old2')"; ""].

Definition manifest_1_0_0_no_tag : string :=
  join ["pkgver=1.0.0"; "pkgrel=5"; "sha256sums_x86_64=('old1')";
        "sha256sums_aarch64=('old2')"; ""].

(** A tag that spans two lines, the second one a [pkgrel] line. *)
Definition tag_with_pkgrel_line : string := join ["r2"; "pkgrel=7"].

(* ================================================================= *)
(** ** Further notions and examples *)

Definition manifest_current : string :=
  join ["pkgver=2.3.3"; "pkgrel=7"; "_releaseTag='v2.3.3'";
        "sha256sums_x86_64=('abc')"; "sha256sums_aarch64=('def')"; ""].

Definition manifest_first_pkgver_current : string :=
  join ["pkgver=2.3.3"; "pkgver=2.0.0"; "pkgrel=4"; "pkgrel=9";
        "_releaseTag='old'"; "sha256sums_x86_64=('old1')";
        "sha256sums_aarch64=('old2')"].

Definition no_backslash (s : string) : bool :=
  all_chars (fun c => negb (Ascii.eqb c backslash)) s.

(** The two-character text backslash, [e]. *)
Definition escape (e : ascii) : string := String backslash (String e "").

Definition manifest_pkgver_only : string := join ["pkgver=2.3.2"; ""].

(** The lines [main] prints up to the update, and up to the write. *)
Definition progress_lines (input : string) (info : release_info) : list string :=
  let '(version, release_tag, sha256_x86_64, sha256_aarch64) := info in
  ["Reading PKGBUILD from: " ++ input;
   "Fetching latest release from GitHub...";
   "  Version: " ++ version;
   "  Release tag: " ++ release_tag;
   "  SHA256 (x86_64): " ++ sha256_x86_64;
   "  SHA256 (aarch64): " ++ sha256_aarch64;
   "Updating PKGBUILD..."].

Definition with_output {E : Env} (st : state) (w : world)
                       (ls : list string) : state :=
  {| st_world := w; st_stdout := st_stdout st ++ ls |}.

(** A plain release: its tag and digests hold no line feed or backslash. *)
Definition release_plain : release :=
  {| tag_name := Some "v2.3.3";
     assets :=
       Some [{| name := Some "Keyguard-2.3.3-linux-x86_64.tar.gz";
                digest := Some (JStr "sha256:abc123...") |};
             {| name := Some "Keyguard-2.3.3-linux-aarch64.tar.gz";
                digest := Some (JStr "sha256:def456...") |}] |}.

(** The start of a run: one file, nothing printed yet. *)
Definition start (net : option release) (read_only : list string)
  : @state (file_env net read_only) :=
  @Build_state (file_env net read_only) [("PKGBUILD", manifest_2_3_2)] [].

Definition env_plain : Env := file_env (Some release_plain) [].

Definition start_plain : @state env_plain := start (Some release_plain) [].

(** The state after [main "PKGBUILD" "PKGBUILD.new"] and after
    [main "PKGBUILD" "PKGBUILD"]. *)
Definition done_copy : @state env_plain :=
  @Build_state env_plain
    [("PKGBUILD.new", manifest_2_3_3); ("PKGBUILD", manifest_2_3_2)]
    (progress_lines "PKGBUILD" ("2.3.3", "v2.3.3", "abc123...", "def456...")
     ++ ["Writing updated PKGBUILD to: PKGBUILD.new"; "Done!"])%list.

Definition done_in_place : @state env_plain :=
  @Build_state env_plain
    [("PKGBUILD", manifest_2_3_3); ("PKGBUILD", manifest_2_3_2)]
    (progress_lines "PKGBUILD" ("2.3.3", "v2.3.3", "abc123...", "def456...")
     ++ ["Writing updated PKGBUILD to: PKGBUILD"; "Done!"])%list.

Definition manifest_unversioned : string :=
  join ["# Maintainer: someone"; "pkgname=keyguard-bin"; "pkgver=";
        "pkgrel=1"; "_releaseTag='v2.3.3'"; "arch=('x86_64' 'aarch64')";
        "sha256sums_x86_64=('abc')"; "sha256sums_aarch64=('def')"; ""].

Definition asset_aarch64_other_version : asset :=
  {| name := Some "Keyguard-9.9.9-linux-aarch64.tar.gz";
     digest := Some (JStr ("sha256:" ++ hash_b)) |}.

(* ================================================================= *)
(** ** Strings: append, prefixes and suffixes *)

Section StringFacts.

Lemma sapp_assoc (a b c : string) : (a ++ b) ++ c = a ++ (b ++ c).
Proof. induction a as [|x a IH]; simpl; [reflexivity | now rewrite IH]. Qed.

Lemma sapp_nil_r (a : string) : a ++ "" = a.
Proof. induction a as [|x a IH]; simpl; [reflexivity | now rewrite IH]. Qed.

Lemma slength_app (a b : string) :
  String.length (a ++ b) = String.length a + String.length b.
Proof. induction a as [|x a IH]; simpl; [reflexivity | now rewrite IH]. Qed.

Lemma drop_app (p r : string) : drop (String.length p) (p ++ r) = r.
Proof. induction p as [|x p IH]; simpl; auto. Qed.

Lemma take_app (p r : string) : take (String.length p) (p ++ r) = p.
Proof. induction p as [|x p IH]; simpl; [reflexivity | now rewrite IH]. Qed.

Lemma take_drop (n : nat) (s : string) : take n s ++ drop n s = s.
Proof.
  revert s; induction n as [|n IH]; intros s; simpl; [reflexivity|].
  destruct s as [|c s]; simpl; [reflexivity | now rewrite IH].
Qed.

Lemma slength_drop (n : nat) (s : string) :
  String.length (drop n s) = String.length s - n.
Proof.
  revert s; induction n as [|n IH]; intros s; simpl; [lia|].
  destruct s as [|c s]; simpl; [reflexivity | apply IH].
Qed.

Lemma slength_take (n : nat) (s : string) :
  n <= String.length s -> String.length (take n s) = n.
Proof.
  revert s; induction n as [|n IH]; intros s H; simpl; [reflexivity|].
  destruct s as [|c s]; simpl in *; [lia | rewrite IH; lia].
Qed.

Lemma drop_all (s : string) : drop (String.length s) s = "".
Proof. induction s; simpl; auto. Qed.

Lemma take_all (s : string) : take (String.length s) s = s.
Proof. induction s as [|c s IH]; simpl; [reflexivity | now rewrite IH]. Qed.

Lemma startswith_app (p r : string) : startswith (p ++ r) p = true.
Proof.
  induction p as [|x p IH]; simpl; [reflexivity|].
  now rewrite Ascii.eqb_refl, IH.
Qed.

Lemma startswith_inv (s p : string) :
  startswith s p = true -> s = p ++ drop (String.length p) s.
Proof.
  revert s; induction p as [|x p IH]; intros s H; simpl in *; [reflexivity|].
  destruct s as [|d s]; [discriminate|].
  apply andb_true_iff in H as [Hc Hs].
  apply Ascii.eqb_eq in Hc; subst d.
  now rewrite <- IH.
Qed.

Lemma startswith_iff (s p : string) :
  startswith s p = true <-> exists r, s = p ++ r.
Proof.
  split.
  - intros H; eexists; now apply startswith_inv.
  - intros [r ->]; apply startswith_app.
Qed.

(** Two prefixes of one string are comparable. *)
Lemma startswith_comparable (s p q : string) :
  startswith s p = true -> startswith s q = true ->
  startswith p q = true \/ startswith q p = true.
Proof.
  revert s q; induction p as [|x p IH]; intros s q Hp Hq.
  - right; reflexivity.
  - destruct q as [|y q]; [left; reflexivity|].
    destruct s as [|d s]; simpl in *; [discriminate|].
    apply andb_true_iff in Hp as [Hx Hp].
    apply andb_true_iff in Hq as [Hy Hq].
    apply Ascii.eqb_eq in Hx, Hy; subst x y.
    rewrite Ascii.eqb_refl; simpl.
    eapply IH; eauto.
Qed.

Lemma endswith_app (r p : string) : endswith (r ++ p) p = true.
Proof.
  unfold endswith; rewrite slength_app.
  replace (String.length r + String.length p - String.length p)
    with (String.length r) by lia.
  rewrite drop_app, String.eqb_refl, andb_true_r.
  apply Nat.leb_le; lia.
Qed.

Lemma endswith_inv (s p : string) :
  endswith s p = true ->
  s = take (String.length s - String.length p) s ++ p.
Proof.
  unfold endswith; intros H.
  apply andb_true_iff in H as [_ H].
  apply String.eqb_eq in H.
  rewrite <- (take_drop (String.length s - String.length p) s) at 1.
  now rewrite H.
Qed.

Lemma endswith_iff (s p : string) :
  endswith s p = true <-> exists r, s = r ++ p.
Proof.
  split.
  - intros H; eexists; now apply endswith_inv.
  - intros [r ->]; apply endswith_app.
Qed.

Lemma endswith_nil (s : string) : endswith s "" = true.
Proof. apply endswith_iff; exists s; now rewrite sapp_nil_r. Qed.

(** Equal concatenations with right parts of equal length. *)
Lemma sapp_inj_length_r (a b x y : string) :
  a ++ x = b ++ y -> String.length x = String.length y -> a = b /\ x = y.
Proof.
  revert b; induction a as [|c a IH]; intros b H L.
  - destruct b as [|d b]; simpl in *; [auto|].
    exfalso. apply (f_equal String.length) in H.
    simpl in H; rewrite slength_app in H; lia.
  - destruct b as [|d b]; simpl in *.
    + exfalso. apply (f_equal String.length) in H.
      simpl in H; rewrite slength_app in H; lia.
    + injection H as -> H. destruct (IH _ H L) as [-> ->]; auto.
Qed.

Lemma all_chars_app (f : ascii -> bool) (a b : string) :
  all_chars f (a ++ b) = all_chars f a && all_chars f b.
Proof.
  induction a as [|c a IH]; simpl; [reflexivity|].
  now rewrite IH, andb_assoc.
Qed.

Lemma plain_app (a b : string) : plain (a ++ b) = plain a && plain b.
Proof. apply all_chars_app. Qed.

Lemma plain_no_lf (s : string) : plain s = true -> no_lf s = true.
Proof.
  induction s as [|c s IH]; simpl; [reflexivity|].
  intros H; apply andb_true_iff in H as [H1 H2].
  apply andb_true_iff in H1 as [H1 _].
  unfold no_lf in *; simpl; now rewrite H1, IH.
Qed.

End StringFacts.

(* ================================================================= *)
(** ** Lines *)

Section LineFacts.

Lemma lines_not_nil (s : string) : lines s <> [].
Proof.
  induction s as [|c s IH]; simpl; [discriminate|].
  destruct (Ascii.eqb c LF); [discriminate|].
  destruct (lines s); discriminate.
Qed.

Lemma join_cons (l : string) (ls : list string) :
  ls <> [] -> join (l :: ls) = l ++ nl ++ join ls.
Proof. destruct ls; [congruence | reflexivity]. Qed.

Lemma join_lines (s : string) : join (lines s) = s.
Proof.
  induction s as [|c s IH]; simpl; [reflexivity|].
  destruct (Ascii.eqb_spec c LF) as [->|Hc].
  - rewrite join_cons by apply lines_not_nil. simpl. now rewrite IH.
  - pose proof (lines_not_nil s) as Hn.
    destruct (lines s) as [|l ls]; [congruence|].
    destruct ls as [|l' ls]; simpl in *; now rewrite <- IH.
Qed.

Lemma lines_app_nl (a b : string) :
  lines (a ++ nl ++ b) = (lines a ++ lines b)%list.
Proof.
  change (nl ++ b) with (String LF b).
  induction a as [|c a IH]; simpl.
  - reflexivity.
  - rewrite IH.
    destruct (Ascii.eqb c LF); [reflexivity|].
    pose proof (lines_not_nil a) as Hn.
    destruct (lines a); [congruence | reflexivity].
Qed.

Lemma lines_single (l : string) : no_lf l = true -> lines l = [l].
Proof.
  unfold no_lf; induction l as [|c l IH]; simpl; [reflexivity|].
  intros H; apply andb_true_iff in H as [Hc Hl].
  apply negb_true_iff in Hc; rewrite Hc, (IH Hl); reflexivity.
Qed.

Lemma lines_no_lf (s : string) : Forall (fun l => no_lf l = true) (lines s).
Proof.
  induction s as [|c s IH]; simpl.
  - repeat constructor.
  - destruct (Ascii.eqb c LF) eqn:Hc.
    + constructor; [reflexivity | assumption].
    + destruct (lines s) as [|l ls]; [repeat constructor; unfold no_lf; simpl; now rewrite Hc|].
      inversion IH; subst. constructor; [|assumption].
      unfold no_lf in *; simpl; now rewrite Hc.
Qed.

(** Joining pieces that may themselves span several lines. *)
Lemma lines_join_pieces (segs : list string) :
  segs <> [] -> lines (join segs) = concat (map lines segs).
Proof.
  induction segs as [|s segs IH]; [congruence|]; intros _.
  destruct segs as [|s' segs].
  - simpl; now rewrite app_nil_r.
  - rewrite join_cons by discriminate.
    rewrite lines_app_nl, IH by discriminate. reflexivity.
Qed.

Lemma lines_join (ls : list string) :
  ls <> [] -> Forall (fun l => no_lf l = true) ls -> lines (join ls) = ls.
Proof.
  intros Hn Hf; rewrite lines_join_pieces by assumption.
  clear Hn; induction Hf as [|l ls Hl Hf IH]; simpl; [reflexivity|].
  now rewrite (lines_single _ Hl), IH.
Qed.

Lemma join_app (a b : list string) :
  a <> [] -> b <> [] -> join (a ++ b) = join a ++ nl ++ join b.
Proof.
  induction a as [|x a IH]; [congruence|]; intros _ Hb.
  destruct a as [|y a].
  - simpl (([x] ++ b)%list). now apply join_cons.
  - change (((x :: y :: a) ++ b)%list) with (x :: ((y :: a) ++ b))%list.
    rewrite join_cons by discriminate.
    rewrite IH by (discriminate || assumption).
    rewrite (@join_cons x (y :: a)) by discriminate.
    now rewrite !sapp_assoc.
Qed.

Lemma join_concat (lss : list (list string)) :
  Forall (fun ls => ls <> []) lss -> join (concat lss) = join (map join lss).
Proof.
  induction 1 as [|ls lss Hls Hf IH]; simpl; [reflexivity|].
  destruct lss as [|ls' lss].
  - simpl; now rewrite app_nil_r.
  - assert (Hc : concat (ls' :: lss) <> []).
    { inversion Hf; subst; simpl. destruct ls'; [congruence | discriminate]. }
    rewrite join_app by assumption.
    rewrite IH. reflexivity.
Qed.

End LineFacts.

(* ================================================================= *)
(** ** Templates and line patterns *)

Section PatternFacts.

(** A plain replacement string is a template that stands for itself. *)
Lemma parse_template_plain (s : string) :
  plain s = true ->
  exists t, parse_template s = Some t /\ forall m, expand_template t m = s.
Proof.
  unfold parse_template, plain.
  induction s as [|c s IH]; simpl; intros H.
  - exists []; split; reflexivity.
  - apply andb_true_iff in H as [Hc Hs].
    apply andb_true_iff in Hc as [_ Hb].
    rewrite Hb.
    destruct (IH Hs) as [t [Ht He]].
    exists (TLit c :: t); rewrite Ht; split; [reflexivity|].
    intros m; simpl; now rewrite He.
Qed.

Lemma find_filter {A : Type} (f : A -> bool) (l : list A) :
  find f l = hd_error (filter f l).
Proof.
  induction l as [|x l IH]; simpl; [reflexivity|].
  destruct (f x); [reflexivity | exact IH].
Qed.

Lemma existsb_filter {A : Type} (f : A -> bool) (l : list A) :
  existsb f l = negb (Nat.eqb (List.length (filter f l)) 0).
Proof.
  induction l as [|x l IH]; simpl; [reflexivity|].
  destruct (f x); [reflexivity | exact IH].
Qed.

Lemma fullmatch_prefix (p : line_re) (l : string) :
  fullmatch p l = true -> startswith l (re_prefix p) = true.
Proof.
  unfold fullmatch; intros H.
  apply andb_true_iff in H as [H _].
  now apply andb_true_iff in H as [H _].
Qed.

(** No line matches the patterns of two different fields. *)
Lemma fullmatch_exclusive (f g : field) (l : string) :
  fullmatch (field_re f) l = true -> fullmatch (field_re g) l = true -> f = g.
Proof.
  intros Hf Hg.
  apply fullmatch_prefix in Hf, Hg.
  destruct (startswith_comparable _ _ _ Hf Hg) as [H|H];
    destruct f, g; try reflexivity; discriminate H.
Qed.

(** A match of [^pkgver=(.+)$]: group 1 is everything after the prefix. *)
Lemma dotplus_pkgver (l : string) : dotplus pkgver_re l = drop 7 l.
Proof.
  unfold dotplus; simpl.
  rewrite Nat.sub_0_r, <- (slength_drop 7 l).
  apply take_all.
Qed.

Lemma fullmatch_pkgver_new (v : string) :
  fullmatch pkgver_re ("pkgver=" ++ v) = negb (String.eqb v "").
Proof.
  unfold fullmatch; simpl re_prefix; simpl re_suffix.
  rewrite startswith_app, endswith_nil; simpl.
  destruct v; reflexivity.
Qed.

Lemma fullmatch_build (p : line_re) (mid : string) :
  mid <> "" -> fullmatch p (re_prefix p ++ mid ++ re_suffix p) = true.
Proof.
  intros Hm; unfold fullmatch.
  rewrite startswith_app.
  rewrite <- sapp_assoc, endswith_app; simpl.
  rewrite !slength_app.
  destruct mid as [|c mid]; [congruence|]; simpl.
  apply Nat.leb_le; lia.
Qed.

(** The rewritten text of a field matches that field's pattern again (for
    [pkgver], as long as the version is not empty). *)
Lemma fullmatch_new_line (b : bool) (v t h1 h2 : string) (f : field) (l : string) :
  v <> "" -> fullmatch (field_re f) l = true ->
  fullmatch (field_re f) (new_line b v t h1 h2 f l) = true.
Proof.
  intros Hv Hl; destruct f; unfold new_line, field_re in *.
  - rewrite fullmatch_pkgver_new. now apply negb_true_iff, String.eqb_neq.
  - destruct b; [reflexivity | exact Hl].
  - unfold fullmatch; simpl re_prefix; simpl re_suffix.
    rewrite endswith_nil; simpl. reflexivity.
  - replace ("sha256sums_x86_64=('" ++ h1 ++ "')")
      with (re_prefix sha256sums_x86_64_re ++ ("'" ++ h1 ++ "'")
            ++ re_suffix sha256sums_x86_64_re)
      by (simpl; now rewrite sapp_assoc).
    apply fullmatch_build; discriminate.
  - replace ("sha256sums_aarch64=('" ++ h2 ++ "')")
      with (re_prefix sha256sums_aarch64_re ++ ("'" ++ h2 ++ "'")
            ++ re_suffix sha256sums_aarch64_re)
      by (simpl; now rewrite sapp_assoc).
    apply fullmatch_build; discriminate.
Qed.

(** ... and the pattern of no other field. *)
Lemma fullmatch_new_line_other (b : bool) (v t h1 h2 : string) (f g : field)
      (l : string) :
  f <> g -> fullmatch (field_re f) l = true ->
  fullmatch (field_re g) (new_line b v t h1 h2 f l) = false.
Proof.
  intros Hfg Hl.
  destruct (fullmatch (field_re g) (new_line b v t h1 h2 f l)) eqn:E;
    [|reflexivity].
  exfalso.
  assert (Hsame : new_line b v t h1 h2 f l = l -> False).
  { intros Hs; rewrite Hs in E. apply Hfg. eapply fullmatch_exclusive; eauto. }
  destruct f; try (destruct b); try (now apply Hsame);
    apply fullmatch_prefix in E;
    destruct g; try congruence; discriminate E.
Qed.

End PatternFacts.

(* ================================================================= *)
(** ** Substitution with plain replacement texts *)

Section PlainSubstitution.

Lemma re_subn_plain (p : line_re) (r content : string) :
  plain r = true ->
  re_subn p r content
  = Ok (join (map (replace_line p r) (lines content)),
        List.length (filter (fullmatch p) (lines content))).
Proof.
  intros Hr; unfold re_subn.
  destruct (parse_template_plain r Hr) as [t [Ht He]]; rewrite Ht.
  unfold sub_text. do 3 f_equal. apply map_ext; intros l.
  unfold sub_line, replace_line. now rewrite He.
Qed.

Lemma replace_line_no_lf (p : line_re) (r : string) (ls : list string) :
  no_lf r = true -> Forall (fun l => no_lf l = true) ls ->
  Forall (fun l => no_lf l = true) (map (replace_line p r) ls).
Proof.
  intros Hr; induction 1 as [|l ls Hl _ IH]; simpl; constructor; auto.
  unfold replace_line; now destruct (fullmatch p l).
Qed.

Lemma map_not_nil {A B : Type} (f : A -> B) (l : list A) :
  l <> [] -> map f l <> [].
Proof. destruct l; [congruence | discriminate]. Qed.

Lemma substitute_plain (p : line_re) (r fld : string) (ls : list string) :
  ls <> [] -> Forall (fun l => no_lf l = true) ls -> plain r = true ->
  substitute p r fld (join ls)
  = if existsb (fullmatch p) ls
    then Ok (join (map (replace_line p r) ls))
    else Raise (ValueError (fld ++ " not found in PKGBUILD")).
Proof.
  intros Hn Hf Hr; unfold substitute.
  rewrite re_subn_plain by assumption. simpl bind. unfold fst, snd.
  rewrite lines_join by assumption.
  rewrite existsb_filter.
  destruct (List.length (filter (fullmatch p) ls) =? 0); reflexivity.
Qed.

Lemma replace_hit (p : line_re) (r l : string) :
  fullmatch p l = true -> replace_line p r l = r.
Proof. unfold replace_line; now intros ->. Qed.

Lemma replace_miss (p : line_re) (r l : string) :
  fullmatch p l = false -> replace_line p r l = l.
Proof. unfold replace_line; now intros ->. Qed.

(** Rewriting the lines of one field does not change which lines match
    another field. *)
Lemma fullmatch_replace_other (f g : field) (b : bool) (v t h1 h2 l0 l : string) :
  f <> g ->
  (b = false -> f <> Pkgrel) ->
  fullmatch (field_re g)
            (replace_line (field_re f) (new_line b v t h1 h2 f l0) l)
  = fullmatch (field_re g) l.
Proof.
  intros Hfg Hb. unfold replace_line.
  destruct (fullmatch (field_re f) l) eqn:E; [|reflexivity].
  assert (Hg : fullmatch (field_re g) l = false).
  { destruct (fullmatch (field_re g) l) eqn:E'; [|reflexivity].
    exfalso; apply Hfg; eapply fullmatch_exclusive; eauto. }
  rewrite Hg.
  destruct (fullmatch (field_re g) (new_line b v t h1 h2 f l0)) eqn:E';
    [|reflexivity].
  exfalso. apply fullmatch_prefix in E'.
  destruct f; try (destruct b; [|now (exfalso; apply Hb)]);
    destruct g; try congruence; discriminate E'.
Qed.

Lemma existsb_replace_other (f g : field) (b : bool) (v t h1 h2 l0 : string)
      (ls : list string) :
  f <> g ->
  (b = false -> f <> Pkgrel) ->
  existsb (fullmatch (field_re g))
          (map (replace_line (field_re f) (new_line b v t h1 h2 f l0)) ls)
  = existsb (fullmatch (field_re g)) ls.
Proof.
  intros Hfg Hb; induction ls as [|l ls IH]; simpl; [reflexivity|].
  now rewrite IH, fullmatch_replace_other.
Qed.

End PlainSubstitution.

(* ================================================================= *)
(** ** The five substitutions as one pass over the lines *)

Section OnePass.

Lemma absent_existsb (f : field) (c : string) :
  absent f c = negb (existsb (fullmatch (field_re f)) (lines c)).
Proof.
  unfold absent, field_lines. rewrite existsb_filter.
  destruct (filter (fullmatch (field_re f)) (lines c)); reflexivity.
Qed.

Lemma new_line_miss (f g : field) (b : bool) (v t h1 h2 : string) :
  f <> g -> (b = false -> f <> Pkgrel) ->
  fullmatch (field_re g) (new_line b v t h1 h2 f "") = false.
Proof.
  intros Hfg Hb.
  destruct f; try (destruct b; [|now (exfalso; apply Hb)]);
    destruct g; try congruence; reflexivity.
Qed.

Ltac replace_step :=
  cbv beta;
  match goal with
  | |- context [replace_line ?p ?r ?x] =>
      first [ rewrite (replace_hit p r x) by assumption
            | rewrite (replace_miss p r x)
                by (first [ assumption | apply new_line_miss; congruence ]) ]
  end.

(** The five substitutions, one after the other, act on a line as the
    single pass does. *)
Lemma compose_rewrite_line (b : bool) (v t h1 h2 l : string) :
  replace_line (field_re Sha256sums_aarch64) (new_line b v t h1 h2 Sha256sums_aarch64 "")
    (replace_line (field_re Sha256sums_x86_64) (new_line b v t h1 h2 Sha256sums_x86_64 "")
       (replace_line (field_re ReleaseTag) (new_line b v t h1 h2 ReleaseTag "")
          ((if b then replace_line (field_re Pkgrel) (new_line true v t h1 h2 Pkgrel "")
            else fun x => x)
             (replace_line (field_re Pkgver) (new_line b v t h1 h2 Pkgver "") l))))
  = rewrite_line b v t h1 h2 l.
Proof.
  assert (Hex : forall f g, fullmatch (field_re f) l = true -> f <> g ->
                            fullmatch (field_re g) l = false).
  { intros f g Hf Hfg.
    destruct (fullmatch (field_re g) l) eqn:E; [|reflexivity].
    exfalso; apply Hfg; eapply fullmatch_exclusive; eauto. }
  unfold rewrite_line, all_fields; cbn [find].
  destruct (fullmatch (field_re Pkgver) l) eqn:E1.
  { replace_step. destruct b; repeat replace_step; reflexivity. }
  destruct (fullmatch (field_re Pkgrel) l) eqn:E2.
  { pose proof (Hex _ ReleaseTag E2 ltac:(discriminate)).
    pose proof (Hex _ Sha256sums_x86_64 E2 ltac:(discriminate)).
    pose proof (Hex _ Sha256sums_aarch64 E2 ltac:(discriminate)).
    replace_step. destruct b; repeat replace_step; reflexivity. }
  destruct (fullmatch (field_re ReleaseTag) l) eqn:E3.
  { pose proof (Hex _ Sha256sums_x86_64 E3 ltac:(discriminate)).
    pose proof (Hex _ Sha256sums_aarch64 E3 ltac:(discriminate)).
    replace_step. destruct b; repeat replace_step; reflexivity. }
  destruct (fullmatch (field_re Sha256sums_x86_64) l) eqn:E4.
  { pose proof (Hex _ Sha256sums_aarch64 E4 ltac:(discriminate)).
    replace_step. destruct b; repeat replace_step; reflexivity. }
  destruct (fullmatch (field_re Sha256sums_aarch64) l) eqn:E5;
    replace_step; destruct b; repeat replace_step; reflexivity.
Qed.

Lemma substitute_field (f : field) (b : bool) (v t h1 h2 : string)
      (ls : list string) :
  ls <> [] -> Forall (fun l => no_lf l = true) ls ->
  plain (new_line b v t h1 h2 f "") = true ->
  substitute (field_re f) (new_line b v t h1 h2 f "") (field_name f) (join ls)
  = if existsb (fullmatch (field_re f)) ls
    then Ok (join (map (replace_line (field_re f) (new_line b v t h1 h2 f "")) ls))
    else Raise (not_found f).
Proof. intros; now apply substitute_plain. Qed.

Lemma plain_new_line (f : field) (b : bool) (v t h1 h2 : string) :
  plain v = true -> plain t = true -> plain h1 = true -> plain h2 = true ->
  (b = false -> f <> Pkgrel) ->
  plain (new_line b v t h1 h2 f "") = true.
Proof.
  intros Hv Ht H1 H2 Hb.
  destruct f; unfold new_line; rewrite ?plain_app, ?Hv, ?Ht, ?H1, ?H2;
    try reflexivity.
  destruct b; [reflexivity | now (exfalso; apply Hb)].
Qed.

Lemma update_pkgbuild_unfold (c v t h1 h2 : string) :
  update_pkgbuild c v t h1 h2 =
  match re_search pkgver_re c with
  | None => Raise (not_found Pkgver)
  | Some cur =>
      let b := negb (String.eqb cur v) in
      let r := fun f => new_line b v t h1 h2 f "" in
      c1 <- substitute (field_re Pkgver) (r Pkgver) (field_name Pkgver) c ;;
      c2 <- (if b
             then substitute (field_re Pkgrel) (new_line true v t h1 h2 Pkgrel "")
                             (field_name Pkgrel) c1
             else Ok c1) ;;
      c3 <- substitute (field_re ReleaseTag) (r ReleaseTag)
                       (field_name ReleaseTag) c2 ;;
      c4 <- substitute (field_re Sha256sums_x86_64) (r Sha256sums_x86_64)
                       (field_name Sha256sums_x86_64) c3 ;;
      substitute (field_re Sha256sums_aarch64) (r Sha256sums_aarch64)
                 (field_name Sha256sums_aarch64) c4
  end.
Proof. reflexivity. Qed.

Ltac plain_side :=
  lazymatch goal with
  | |- _ <> [] => repeat apply map_not_nil; assumption
  | |- Forall _ _ =>
      repeat (apply replace_line_no_lf;
              [apply plain_no_lf, plain_new_line; (assumption || congruence)|]);
      assumption
  | |- plain _ = true => apply plain_new_line; (assumption || congruence)
  end.

Lemma update_pkgbuild_plain (c v t h1 h2 : string) :
  plain v = true -> plain t = true -> plain h1 = true -> plain h2 = true ->
  update_pkgbuild c v t h1 h2 = update_by_lines c v t h1 h2.
Proof.
  intros Hv Ht H1 H2.
  rewrite update_pkgbuild_unfold.
  unfold update_by_lines, re_search.
  unfold all_fields; cbn [find required andb].
  rewrite !absent_existsb.
  unfold version_changes, field_lines.
  rewrite find_filter, (existsb_filter (fullmatch (field_re Pkgver))).
  change pkgver_re with (field_re Pkgver).
  pose proof (join_lines c) as Hc.
  pose proof (lines_not_nil c) as Hn.
  pose proof (lines_no_lf c) as Hf.
  remember (lines c) as ls eqn:Hls. rewrite <- Hc. clear Hc Hls c.
  destruct (filter (fullmatch (field_re Pkgver)) ls) as [|l0 rest] eqn:Hpv;
    [reflexivity|].
  cbn [hd_error List.length Nat.eqb negb].
  rewrite dotplus_pkgver.
  assert (Hp : existsb (fullmatch (field_re Pkgver)) ls = true)
    by (now rewrite existsb_filter, Hpv).
  cbv zeta.
  set (b := negb (drop 7 l0 =? v)%string).
  rewrite substitute_field by plain_side.
  rewrite Hp; cbn [bind].
  assert (Hrest : forall ls2,
             ls2 <> [] -> Forall (fun l => no_lf l = true) ls2 ->
             (forall g, g <> Pkgver -> g <> Pkgrel ->
                        existsb (fullmatch (field_re g)) ls2
                        = existsb (fullmatch (field_re g)) ls) ->
             (c3 <- substitute (field_re ReleaseTag) (new_line b v t h1 h2 ReleaseTag "")
                               (field_name ReleaseTag) (join ls2) ;;
              c4 <- substitute (field_re Sha256sums_x86_64)
                               (new_line b v t h1 h2 Sha256sums_x86_64 "")
                               (field_name Sha256sums_x86_64) c3 ;;
              substitute (field_re Sha256sums_aarch64)
                         (new_line b v t h1 h2 Sha256sums_aarch64 "")
                         (field_name Sha256sums_aarch64) c4)
             = match
                 (if negb (existsb (fullmatch (field_re ReleaseTag)) ls)
                  then Some ReleaseTag
                  else if negb (existsb (fullmatch (field_re Sha256sums_x86_64)) ls)
                  then Some Sha256sums_x86_64
                  else if negb (existsb (fullmatch (field_re Sha256sums_aarch64)) ls)
                  then Some Sha256sums_aarch64
                  else None)
               with
               | Some f => Raise (not_found f)
               | None =>
                   Ok (join
                         (map (replace_line (field_re Sha256sums_aarch64)
                                 (new_line b v t h1 h2 Sha256sums_aarch64 ""))
                            (map (replace_line (field_re Sha256sums_x86_64)
                                    (new_line b v t h1 h2 Sha256sums_x86_64 ""))
                               (map (replace_line (field_re ReleaseTag)
                                       (new_line b v t h1 h2 ReleaseTag ""))
                                  ls2))))
               end).
  { intros ls2 Hn2 Hf2 Hsame.
    rewrite substitute_field by plain_side.
    rewrite (Hsame ReleaseTag) by discriminate.
    destruct (existsb (fullmatch (field_re ReleaseTag)) ls); [|reflexivity].
    cbn [bind negb].
    rewrite substitute_field by plain_side.
    rewrite existsb_replace_other, (Hsame Sha256sums_x86_64) by congruence.
    destruct (existsb (fullmatch (field_re Sha256sums_x86_64)) ls); [|reflexivity].
    cbn [bind negb].
    rewrite substitute_field by plain_side.
    rewrite !existsb_replace_other, (Hsame Sha256sums_aarch64) by congruence.
    destruct (existsb (fullmatch (field_re Sha256sums_aarch64)) ls); reflexivity. }
  clearbody b. destruct b.
  - rewrite substitute_field by plain_side.
    rewrite existsb_replace_other by congruence.
    destruct (existsb (fullmatch (field_re Pkgrel)) ls); [|reflexivity].
    cbn [bind negb andb].
    rewrite Hrest; try plain_side.
    + destruct (if negb (existsb (fullmatch (field_re ReleaseTag)) ls) then _ else _);
        [reflexivity|].
      rewrite !map_map. do 2 f_equal. apply map_ext; intros l.
      apply (compose_rewrite_line true).
    + intros g Hg1 Hg2. now rewrite !existsb_replace_other by congruence.
  - cbn [bind negb andb].
    rewrite Hrest; try plain_side.
    + destruct (if negb (existsb (fullmatch (field_re ReleaseTag)) ls) then _ else _);
        [reflexivity|].
      rewrite !map_map. do 2 f_equal. apply map_ext; intros l.
      apply (compose_rewrite_line false).
    + intros g Hg1 Hg2. now rewrite !existsb_replace_other by congruence.
Qed.

End OnePass.

(* ================================================================= *)
(** ** Arbitrary replacement templates *)

Section AnyTemplate.

Lemma bind_ok {A B : Type} (r : result A) (k : A -> result B) (y : B) :
  bind r k = Ok y -> exists x, r = Ok x /\ k x = Ok y.
Proof. destruct r as [x|e]; simpl; [eauto | discriminate]. Qed.

Lemma substitute_ok (p : line_re) (r fld content out : string) :
  substitute p r fld content = Ok out ->
  exists t, parse_template r = Some t /\ out = sub_text p t content.
Proof.
  unfold substitute, re_subn; intros H.
  destruct (parse_template r) as [t|]; [|discriminate].
  simpl in H.
  destruct (List.length (filter (fullmatch p) (lines content)) =? 0);
    [discriminate|].
  exists t; split; [reflexivity | congruence].
Qed.

Lemma sub_text_join (p : line_re) (t : list tpl_item) (segs : list string) :
  segs <> [] ->
  sub_text p t (join segs) = join (map (sub_text p t) segs).
Proof.
  intros Hn; unfold sub_text.
  rewrite lines_join_pieces by assumption.
  rewrite concat_map, join_concat; [now rewrite !map_map|].
  apply Forall_forall; intros ls Hin.
  apply in_map_iff in Hin as [ls' [<- Hin]].
  apply map_not_nil.
  apply in_map_iff in Hin as [s [<- _]].
  apply lines_not_nil.
Qed.

Lemma sub_text_miss (p : line_re) (t : list tpl_item) (l : string) :
  no_lf l = true -> fullmatch p l = false -> sub_text p t l = l.
Proof.
  intros Hl Hm; unfold sub_text.
  rewrite (lines_single _ Hl); simpl.
  unfold sub_line; now rewrite Hm.
Qed.

Lemma other_line_miss (l : string) (f : field) :
  other_line l = true -> fullmatch (field_re f) l = false.
Proof.
  unfold other_line, all_fields; cbn [forallb]; intros H.
  repeat (apply andb_true_iff in H as [? H]).
  destruct f; now apply negb_true_iff.
Qed.

(** Whatever the replacement templates are, a successful update rewrites the
    text line by line and leaves the lines of no field alone. *)
Lemma update_pkgbuild_pieces (c v t h1 h2 out : string) :
  update_pkgbuild c v t h1 h2 = Ok out ->
  exists G : string -> string,
    out = join (map G (lines c))
    /\ forall l, no_lf l = true -> other_line l = true -> G l = l.
Proof.
  rewrite update_pkgbuild_unfold.
  destruct (re_search pkgver_re c) as [cur|]; [|discriminate].
  cbv zeta. set (b := negb (cur =? v)%string). clearbody b.
  intros H.
  apply bind_ok in H as [c1 [H1 H]].
  apply bind_ok in H as [c2 [H2 H]].
  apply bind_ok in H as [c3 [H3 H]].
  apply bind_ok in H as [c4 [H4 H5]].
  apply substitute_ok in H1 as [t1 [_ ->]].
  apply substitute_ok in H3 as [t3 [_ ->]].
  apply substitute_ok in H4 as [t4 [_ ->]].
  apply substitute_ok in H5 as [t5 [_ ->]].
  assert (H2' : exists S2 : string -> string,
             c2 = S2 (sub_text (field_re Pkgver) t1 c)
             /\ (forall segs, segs <> [] -> S2 (join segs) = join (map S2 segs))
             /\ (forall l, no_lf l = true -> other_line l = true -> S2 l = l)).
  { destruct b.
    - apply substitute_ok in H2 as [t2 [_ ->]].
      exists (sub_text (field_re Pkgrel) t2); split; [reflexivity|split].
      + intros; now apply sub_text_join.
      + intros l Hl Ho; apply sub_text_miss; [assumption|].
        now apply other_line_miss.
    - injection H2 as <-. exists (fun x => x); split; [reflexivity|split].
      + intros; now rewrite map_id.
      + reflexivity. }
  destruct H2' as [S2 [-> [HS2 HS2']]].
  exists (fun l => sub_text (field_re Sha256sums_aarch64) t5
                     (sub_text (field_re Sha256sums_x86_64) t4
                        (sub_text (field_re ReleaseTag) t3
                           (S2 (sub_text (field_re Pkgver) t1 l))))).
  split.
  - rewrite <- (join_lines c) at 1.
    rewrite sub_text_join by apply lines_not_nil.
    rewrite HS2 by (apply map_not_nil, lines_not_nil).
    rewrite !sub_text_join by (repeat apply map_not_nil; apply lines_not_nil).
    now rewrite !map_map.
  - intros l Hl Ho.
    rewrite (sub_text_miss _ t1 l Hl (other_line_miss l Pkgver Ho)).
    rewrite (HS2' l Hl Ho).
    rewrite (sub_text_miss _ t3 l Hl (other_line_miss l ReleaseTag Ho)).
    rewrite (sub_text_miss _ t4 l Hl (other_line_miss l Sha256sums_x86_64 Ho)).
    apply (sub_text_miss _ t5 l Hl (other_line_miss l Sha256sums_aarch64 Ho)).
Qed.

End AnyTemplate.

(* ================================================================= *)
(** ** The version search *)

Section VersionSearch.

Lemma strip_prefix_app (p r : string) : strip_prefix p (p ++ r) = Some r.
Proof. unfold strip_prefix. now rewrite startswith_app, drop_app. Qed.

Lemma strip_prefix_inv (p s r : string) :
  strip_prefix p s = Some r -> s = p ++ r.
Proof.
  unfold strip_prefix; intros H.
  destruct (startswith s p) eqn:E; [|discriminate].
  injection H as <-. now apply startswith_inv.
Qed.

Lemma span_digits_inv (s d r : string) :
  span_digits s = (d, r) -> s = d ++ r /\ all_chars is_digit d = true.
Proof.
  revert d r; induction s as [|c s IH]; simpl; intros d r H.
  - injection H as <- <-; auto.
  - destruct (is_digit c) eqn:Hc.
    + destruct (span_digits s) as [d' r'].
      injection H as <- <-.
      destruct (IH _ _ eq_refl) as [-> Hd]; simpl; now rewrite Hc.
    + injection H as <- <-; auto.
Qed.

(** A run of digits followed by a character that is not a digit is taken in
    full. *)
Lemma span_digits_app (x : string) (c : ascii) (r : string) :
  all_chars is_digit x = true -> is_digit c = false ->
  span_digits (x ++ String c r) = (x, String c r).
Proof.
  intros Hx Hc; induction x as [|d x IH]; simpl in *.
  - now rewrite Hc.
  - apply andb_true_iff in Hx as [Hd Hx]. now rewrite Hd, IH.
Qed.

Lemma digits1_app (x : string) (c : ascii) (r : string) :
  is_number x = true -> is_digit c = false ->
  digits1 (x ++ String c r) = Some (x, String c r).
Proof.
  unfold is_number, digits1; intros Hx Hc.
  apply andb_true_iff in Hx as [Hne Hx].
  rewrite span_digits_app by assumption.
  destruct x; [discriminate | reflexivity].
Qed.

Lemma digits1_inv (s d r : string) :
  digits1 s = Some (d, r) -> s = d ++ r /\ is_number d = true.
Proof.
  unfold digits1, is_number; intros H.
  destruct (span_digits s) as [d' r'] eqn:E.
  apply span_digits_inv in E as [-> Hd].
  destruct d'; [discriminate|].
  injection H as <- <-; auto.
Qed.

Lemma match_version_here_complete (x y z post : string) :
  is_number x = true -> is_number y = true -> is_number z = true ->
  match_version_here ("Keyguard-" ++ version_text x y z ++ "-linux" ++ post)
  = Some (version_text x y z).
Proof.
  intros Hx Hy Hz; unfold match_version_here, version_text.
  rewrite strip_prefix_app; cbn [obind].
  rewrite !sapp_assoc.
  change ("." ++ y ++ "." ++ z ++ "-linux" ++ post)
    with (String "." (y ++ "." ++ z ++ "-linux" ++ post)).
  rewrite digits1_app by (assumption || reflexivity); cbn [obind].
  change (String "." (y ++ "." ++ z ++ "-linux" ++ post))
    with ("." ++ (y ++ String "." (z ++ "-linux" ++ post))).
  rewrite strip_prefix_app; cbn [obind].
  rewrite digits1_app by (assumption || reflexivity); cbn [obind].
  change (String "." (z ++ "-linux" ++ post))
    with ("." ++ (z ++ String "-" ("linux" ++ post))).
  rewrite strip_prefix_app; cbn [obind].
  rewrite digits1_app by (assumption || reflexivity); cbn [obind].
  change (String "-" ("linux" ++ post)) with ("-linux" ++ post).
  rewrite strip_prefix_app; reflexivity.
Qed.

Lemma obind_some {A B : Type} (o : option A) (k : A -> option B) (b : B) :
  obind o k = Some b -> exists a, o = Some a /\ k a = Some b.
Proof. destruct o as [a|]; simpl; [eauto | discriminate]. Qed.

Lemma match_version_here_sound (s v : string) :
  match_version_here s = Some v ->
  exists post, s = "Keyguard-" ++ v ++ "-linux" ++ post /\ is_version v.
Proof.
  unfold match_version_here; intros H.
  apply obind_some in H as [r0 [H0 H]].
  apply obind_some in H as [[x r1] [Hx H]].
  apply obind_some in H as [r2 [H2 H]].
  apply obind_some in H as [[y r3] [Hy H]].
  apply obind_some in H as [r4 [H4 H]].
  apply obind_some in H as [[z r5] [Hz H]].
  apply obind_some in H as [post [H6 H]].
  injection H as <-.
  apply strip_prefix_inv in H0, H2, H4, H6.
  apply digits1_inv in Hx as [Hx Nx], Hy as [Hy Ny], Hz as [Hz Nz].
  subst. exists post; split.
  - simpl. repeat (rewrite sapp_assoc; simpl). reflexivity.
  - exists x, y, z; auto.
Qed.

Lemma occurs_at_0 (s v : string) :
  occurs_at s 0 v <-> match_version_here s = Some v.
Proof.
  split.
  - intros [pre [post [-> [Hlen [x [y [z [-> [Hx [Hy Hz]]]]]]]]]].
    destruct pre; [|discriminate]. simpl append at 1.
    now apply match_version_here_complete.
  - intros H. apply match_version_here_sound in H as [post [-> Hv]].
    exists "", post; auto.
Qed.

Lemma occurs_at_S (c : ascii) (s : string) (k : nat) (v : string) :
  occurs_at (String c s) (S k) v <-> occurs_at s k v.
Proof.
  split.
  - intros [pre [post [H [Hlen Hv]]]].
    destruct pre as [|d pre]; [discriminate|].
    simpl in H, Hlen. injection H as -> ->. injection Hlen as Hlen.
    exists pre, post; auto.
  - intros [pre [post [-> [Hlen Hv]]]].
    exists (String c pre), post; simpl; auto.
Qed.

Lemma occurs_at_nil (k : nat) (v : string) : ~ occurs_at "" k v.
Proof.
  intros [pre [post [H _]]].
  destruct pre; discriminate H.
Qed.

Lemma re_search_version_none (s : string) :
  re_search_version s = None -> forall k v, ~ occurs_at s k v.
Proof.
  induction s as [|c s IH]; intros H k v Ho.
  - now apply occurs_at_nil in Ho.
  - simpl in H.
    destruct (match_version_here (String c s)) eqn:E; [discriminate|].
    destruct k.
    + apply occurs_at_0 in Ho; congruence.
    + apply occurs_at_S in Ho. now apply (IH H k v).
Qed.

Lemma re_search_version_first (s v : string) :
  re_search_version s = Some v -> first_version s v.
Proof.
  induction s as [|c s IH]; intros H.
  - exists 0; split; [now apply occurs_at_0 | intros; lia].
  - simpl in H.
    destruct (match_version_here (String c s)) eqn:E.
    + injection H as ->. exists 0; split; [now apply occurs_at_0 | intros; lia].
    + destruct (IH H) as [k [Hk Hmin]].
      exists (S k); split; [now apply occurs_at_S|].
      intros k' v' Ho. destruct k'.
      * apply occurs_at_0 in Ho; congruence.
      * apply occurs_at_S in Ho. apply Hmin in Ho. lia.
Qed.

Lemma occurs_at_unique (s : string) (k : nat) (v v' : string) :
  occurs_at s k v -> occurs_at s k v' -> v = v'.
Proof.
  revert s; induction k as [|k IH]; intros s H H'.
  - apply occurs_at_0 in H, H'. congruence.
  - destruct s as [|c s]; [now apply occurs_at_nil in H|].
    apply occurs_at_S in H, H'. eauto.
Qed.

Lemma first_version_search (s v : string) :
  first_version s v -> re_search_version s = Some v.
Proof.
  intros [k [Hk Hmin]].
  destruct (re_search_version s) as [v'|] eqn:E.
  - destruct (re_search_version_first _ _ E) as [k' [Hk' Hmin']].
    assert (k = k') by (apply Nat.le_antisymm; eauto).
    subst k'. f_equal. eapply occurs_at_unique; eauto.
  - exfalso. eapply re_search_version_none; eauto.
Qed.

Lemma occurs_at_search (s : string) (k : nat) (v : string) :
  occurs_at s k v -> exists v', re_search_version s = Some v'.
Proof.
  intros H. destruct (re_search_version s) eqn:E; [eauto|].
  exfalso. eapply re_search_version_none; eauto.
Qed.

End VersionSearch.

(* ================================================================= *)
(** ** The scan over the assets *)

Section AssetScan.

(** No name ends with both suffixes. *)
Lemma suffix_exclusive (a : asset) :
  is_x86_64 a = true -> is_aarch64 a = false.
Proof.
  unfold is_x86_64, is_aarch64; intros Hx.
  destruct (endswith (get_default (name a)) aarch64_suffix) eqn:Ha;
    [|reflexivity].
  exfalso.
  apply endswith_iff in Hx as [r1 H1], Ha as [r2 H2].
  rewrite H1 in H2.
  change x86_64_suffix with ("-linux-x86" ++ "_64.tar.gz") in H2.
  change aarch64_suffix with ("-linux-aarc" ++ "h64.tar.gz") in H2.
  rewrite <- !sapp_assoc in H2.
  apply sapp_inj_length_r in H2 as [_ H2]; [discriminate H2 | reflexivity].
Qed.

Lemma is_x86_64_name (a : asset) :
  is_x86_64 a = true -> name a = Some (get_default (name a)).
Proof.
  unfold is_x86_64; destruct (name a); [reflexivity | discriminate].
Qed.

Lemma is_aarch64_name (a : asset) :
  is_aarch64 a = true -> name a = Some (get_default (name a)).
Proof.
  unfold is_aarch64; destruct (name a); [reflexivity | discriminate].
Qed.

(** The loop keeps, for each architecture, the last asset that matches. *)
Lemma fold_scan_asset (l : list asset) (st : option asset * option asset) :
  fold_left scan_asset l st
  = (match rev (filter is_x86_64 l) with
     | a :: _ => Some a
     | [] => fst st
     end,
     match rev (filter is_aarch64 l) with
     | b :: _ => Some b
     | [] => snd st
     end).
Proof.
  induction l as [|a l IH] using rev_ind.
  - destruct st; reflexivity.
  - rewrite fold_left_app, IH, !filter_app; simpl.
    unfold scan_asset at 1.
    destruct (is_x86_64 a) eqn:Hx.
    + rewrite (suffix_exclusive a Hx); simpl.
      now rewrite rev_app_distr, app_nil_r.
    + destruct (is_aarch64 a) eqn:Ha; simpl;
        now rewrite ?rev_app_distr, ?app_nil_r.
Qed.

Lemma find_linux_assets_last (l : list asset) (a b : asset) :
  last_linux_assets l a b -> find_linux_assets l = (Some a, Some b).
Proof.
  intros [xs [ys [Hx Hy]]]. unfold find_linux_assets.
  now rewrite fold_scan_asset, Hx, Hy, !rev_app_distr.
Qed.

Lemma find_linux_assets_inv (l : list asset) (a b : asset) :
  find_linux_assets l = (Some a, Some b) -> last_linux_assets l a b.
Proof.
  unfold find_linux_assets; rewrite fold_scan_asset; intros H.
  injection H as Hx Hy.
  exists (rev (tl (rev (filter is_x86_64 l)))),
         (rev (tl (rev (filter is_aarch64 l)))).
  split.
  - destruct (rev (filter is_x86_64 l)) as [|a' xs] eqn:E; [discriminate|].
    injection Hx as ->. simpl.
    rewrite <- (rev_involutive (filter is_x86_64 l)), E. reflexivity.
  - destruct (rev (filter is_aarch64 l)) as [|b' ys] eqn:E; [discriminate|].
    injection Hy as ->. simpl.
    rewrite <- (rev_involutive (filter is_aarch64 l)), E. reflexivity.
Qed.

Lemma last_linux_assets_in (l : list asset) (a b : asset) :
  last_linux_assets l a b ->
  (In a l /\ is_x86_64 a = true) /\ (In b l /\ is_aarch64 b = true).
Proof.
  intros [xs [ys [Hx Hy]]]; split; apply filter_In.
  - rewrite Hx; apply in_or_app; right; now left.
  - rewrite Hy; apply in_or_app; right; now left.
Qed.

Lemma extract_sha256_ok (a : asset) (h : string) :
  digest a = Some (JStr ("sha256:" ++ h)) -> extract_sha256 a = Ok h.
Proof. unfold extract_sha256, get_digest; intros ->; reflexivity. Qed.

Lemma extract_sha256_inv (a : asset) (h : string) :
  extract_sha256 a = Ok h -> digest a = Some (JStr ("sha256:" ++ h)).
Proof.
  unfold extract_sha256, get_digest; intros H.
  destruct (digest a) as [[|d]|]; [discriminate H| |].
  - destruct (startswith d "sha256:") eqn:E; cbn [negb] in H.
    + injection H as <-. apply startswith_inv in E.
      now rewrite E at 1.
    + destruct (getitem_name a); discriminate.
  - cbn in H. destruct (getitem_name a); discriminate.
Qed.

End AssetScan.

(* ================================================================= *)
(** ** Extraction of the release information *)

Section Extraction.

Lemma last_linux_assets_unique (l : list asset) (a b a' b' : asset) :
  last_linux_assets l a b -> last_linux_assets l a' b' -> a = a' /\ b = b'.
Proof.
  intros [xs [ys [Hx Hy]]] [xs' [ys' [Hx' Hy']]].
  rewrite Hx in Hx'; rewrite Hy in Hy'.
  apply app_inj_tail in Hx' as [_ ->], Hy' as [_ ->]; auto.
Qed.

Lemma last_linux_assets_not_nil (l : list asset) (a b : asset) :
  last_linux_assets l a b -> l <> [].
Proof.
  intros [xs [_ [Hx _]]] ->. simpl in Hx. now destruct xs.
Qed.

(** What the function computes once a tag is there and the scan has found
    both assets. *)
Lemma extract_release_info_selected (r : release) (tag : string) (a b : asset) :
  tag_name r = Some tag -> tag <> "" ->
  last_linux_assets (get_assets r) a b ->
  extract_release_info r
  = match re_search_version (get_default (name a)) with
    | None =>
        Raise (ValueError ("Could not extract version from asset name: "
                           ++ get_default (name a)))
    | Some version =>
        sha256_x86_64 <- extract_sha256 a ;;
        sha256_aarch64 <- extract_sha256 b ;;
        Ok (version, tag, sha256_x86_64, sha256_aarch64)
    end.
Proof.
  intros Ht Hne Hl. unfold extract_release_info. rewrite Ht.
  destruct tag as [|c tag]; [congruence|].
  pose proof (last_linux_assets_not_nil _ _ _ Hl) as Hn.
  destruct (last_linux_assets_in _ _ _ Hl) as [[_ Ha] _].
  apply find_linux_assets_last in Hl.
  destruct (get_assets r) as [|x l]; [congruence|].
  rewrite Hl.
  unfold getitem_name. rewrite (is_x86_64_name _ Ha). reflexivity.
Qed.

(** A successful extraction, read backwards. *)
Lemma extract_release_info_ok_inv (r : release) (v t h1 h2 : string) :
  extract_release_info r = Ok (v, t, h1, h2) ->
  tag_name r = Some t /\ t <> ""
  /\ exists a b,
      last_linux_assets (get_assets r) a b
      /\ re_search_version (get_default (name a)) = Some v
      /\ extract_sha256 a = Ok h1 /\ extract_sha256 b = Ok h2.
Proof.
  unfold extract_release_info; intros H.
  destruct (tag_name r) as [[|c tag]|]; try discriminate.
  destruct (get_assets r) as [|x l] eqn:El; [discriminate|].
  destruct (find_linux_assets (x :: l)) as [[a|] [b|]] eqn:Ef; try discriminate.
  apply find_linux_assets_inv in Ef.
  destruct (last_linux_assets_in _ _ _ Ef) as [[_ Ha] _].
  unfold getitem_name in H. rewrite (is_x86_64_name _ Ha) in H. simpl in H.
  destruct (re_search_version (get_default (name a))) as [v'|] eqn:Ev;
    [|discriminate].
  destruct (extract_sha256 a) as [x1|] eqn:E1; [|discriminate].
  destruct (extract_sha256 b) as [x2|] eqn:E2; [|discriminate].
  simpl in H. injection H as <- <- <- <-.
  split; [reflexivity|]. split; [discriminate|]. exists a, b; auto.
Qed.

Lemma extract_sha256_cases (a : asset) (n : string) :
  name a = Some n ->
  extract_sha256 a
  = match get_digest a with
    | JNull => Raise AttributeError
    | JStr d =>
        if startswith d "sha256:"
        then Ok (drop 7 d)
        else Raise (ValueError ("SHA256 digest not found for asset: " ++ n))
    end.
Proof.
  unfold extract_sha256, getitem_name; intros ->.
  destruct (get_digest a) as [|d]; [reflexivity|].
  now destruct (startswith d "sha256:").
Qed.

(** The function raises [ValueError], or [AttributeError] on a digest that
    is [null]. *)
Lemma extract_release_info_raises (r : release) (e : exn) :
  extract_release_info r = Raise e ->
  (exists msg, e = ValueError msg) \/ e = AttributeError.
Proof.
  unfold extract_release_info; intros H.
  destruct (tag_name r) as [[|c tag]|]; try (injection H as <-; eauto).
  destruct (get_assets r) as [|x l] eqn:El; [injection H as <-; eauto|].
  destruct (find_linux_assets (x :: l)) as [[a|] [b|]] eqn:Ef;
    try (injection H as <-; eauto).
  apply find_linux_assets_inv in Ef.
  destruct (last_linux_assets_in _ _ _ Ef) as [[_ Ha] [_ Hb]].
  unfold getitem_name in H. rewrite (is_x86_64_name _ Ha) in H. simpl in H.
  destruct (re_search_version (get_default (name a)));
    [|injection H as <-; eauto].
  rewrite (extract_sha256_cases a _ (is_x86_64_name _ Ha)) in H.
  rewrite (extract_sha256_cases b _ (is_aarch64_name _ Hb)) in H.
  destruct (get_digest a) as [|d1]; [injection H as <-; auto|].
  destruct (startswith d1 "sha256:"); cbn [bind] in H;
    [|injection H as <-; eauto].
  destruct (get_digest b) as [|d2]; [injection H as <-; auto|].
  destruct (startswith d2 "sha256:"); cbn [bind] in H;
    [discriminate | injection H as <-; eauto].
Qed.

Lemma malformed_not_ok (r : release) (i : release_info) :
  malformed r -> extract_release_info r <> Ok i.
Proof.
  intros Hm H. destruct i as [[[v t] h1] h2].
  apply extract_release_info_ok_inv in H
    as [Ht [Hne [a [b [Hl [Hv [H1 H2]]]]]]].
  destruct Hm as [Hm|Hm|Hm|Hm|a' b' Hl' Hm|a' b' Hl' Hm].
  - rewrite Ht in Hm; simpl in Hm; congruence.
  - now apply last_linux_assets_not_nil in Hl.
  - destruct Hl as [xs [_ [Hx _]]]. rewrite Hm in Hx. now destruct xs.
  - destruct Hl as [_ [ys [_ Hy]]]. rewrite Hm in Hy. now destruct ys.
  - destruct (last_linux_assets_unique _ _ _ _ _ Hl Hl') as [<- <-].
    apply re_search_version_first in Hv as [k [Hk _]]. now apply (Hm k v).
  - destruct (last_linux_assets_unique _ _ _ _ _ Hl Hl') as [<- <-].
    apply extract_sha256_inv in H1, H2.
    unfold sha256_digest, get_digest in Hm.
    rewrite H1, H2 in Hm. simpl in Hm. destruct Hm; discriminate.
Qed.

Lemma last_of_single (l : list asset) (a b : asset) :
  filter is_x86_64 l = [a] -> filter is_aarch64 l = [b] ->
  last_linux_assets l a b.
Proof. intros Hx Hy; exists [], []; auto. Qed.

Lemma get_assets_some (r : release) (l : list asset) :
  assets r = Some l -> get_assets r = l.
Proof. unfold get_assets; now intros ->. Qed.

Lemma first_version_anchored (v post : string) :
  is_version v -> first_version ("Keyguard-" ++ v ++ "-linux" ++ post) v.
Proof.
  intros Hv; exists 0; split; [|intros; lia].
  exists "", post; auto.
Qed.

(** C1. A release with a non-empty tag, exactly one x86_64 and exactly one
    aarch64 Linux archive, both with a digest that starts with [sha256:],
    and an x86_64 name holding [Keyguard-X.Y.Z-linux] (its leftmost
    occurrence, when there are several) is extracted to exactly
    [(X.Y.Z, tag, h1, h2)], the hashes being the text after the prefix. *)
Theorem extract_release_info_correct
        (r : release) (tag : string) (l : list asset) (a b : asset)
        (n v h1 h2 : string) :
  tag_name r = Some tag -> tag <> "" ->
  assets r = Some l ->
  filter is_x86_64 l = [a] -> filter is_aarch64 l = [b] ->
  name a = Some n -> first_version n v ->
  digest a = Some (JStr ("sha256:" ++ h1)) ->
  digest b = Some (JStr ("sha256:" ++ h2)) ->
  extract_release_info r = Ok (v, tag, h1, h2).
Proof.
  intros Ht Hne Hl Hx Hy Hn Hv H1 H2.
  apply get_assets_some in Hl.
  rewrite (extract_release_info_selected r tag a b Ht Hne)
    by (rewrite Hl; now apply last_of_single).
  rewrite Hn; simpl get_default.
  rewrite (first_version_search _ _ Hv).
  now rewrite (extract_sha256_ok _ _ H1), (extract_sha256_ok _ _ H2).
Qed.

Lemma extract_release_info_correct_witness :
  extract_release_info release_2_3_3 = Ok ("2.3.3", "v2.3.3", hash_a, hash_b).
Proof.
  apply (extract_release_info_correct
           release_2_3_3 "v2.3.3" [asset_deb; asset_x86_64; asset_aarch64]
           asset_x86_64 asset_aarch64
           "Keyguard-2.3.3-linux-x86_64.tar.gz" "2.3.3" hash_a hash_b);
    try reflexivity.
  - discriminate.
  - apply (first_version_anchored "2.3.3" "-x86_64.tar.gz").
    exists "2", "3", "3"; repeat split.
Defined.

Lemma no_occurrence_search (n : string) :
  (forall k v, ~ occurs_at n k v) -> re_search_version n = None.
Proof.
  intros H. destruct (re_search_version n) as [v|] eqn:E; [|reflexivity].
  apply re_search_version_first in E as [k [Hk _]]. now apply H in Hk.
Qed.

Lemma find_linux_assets_no_x86_64 (l : list asset) :
  filter is_x86_64 l = [] -> fst (find_linux_assets l) = None.
Proof.
  intros H. unfold find_linux_assets. now rewrite fold_scan_asset, H.
Qed.

Lemma find_linux_assets_no_aarch64 (l : list asset) :
  filter is_aarch64 l = [] -> snd (find_linux_assets l) = None.
Proof.
  intros H. unfold find_linux_assets. now rewrite fold_scan_asset, H.
Qed.

Lemma find_linux_assets_some_x86_64 (l : list asset) :
  filter is_x86_64 l <> [] -> exists a, fst (find_linux_assets l) = Some a.
Proof.
  intros H. unfold find_linux_assets. rewrite fold_scan_asset; simpl.
  destruct (rev (filter is_x86_64 l)) as [|a xs] eqn:E; [|eauto].
  exfalso; apply H. rewrite <- (rev_involutive (filter is_x86_64 l)), E.
  reflexivity.
Qed.

(** What each defect of the payload raises.  Extraction returns nothing
    whenever the payload is unusable in one of the listed ways; each check,
    when the earlier ones pass, raises its own message, naming the missing
    part or the offending asset, provided the digest that is tested is a
    string (or is left out); and the messages all differ. *)
Lemma extract_release_info_failures :
  (forall r, malformed r -> exists e, extract_release_info r = Raise e)
  /\ (forall r, tag_name r = None \/ tag_name r = Some "" ->
        extract_release_info r
        = Raise (ValueError "Release tag not found in API response"))
  /\ (forall r tag, tag_name r = Some tag -> tag <> "" ->
        assets r = None \/ assets r = Some [] ->
        extract_release_info r = Raise (ValueError "No assets found in release"))
  /\ (forall r tag l, tag_name r = Some tag -> tag <> "" ->
        assets r = Some l -> l <> [] ->
        filter is_x86_64 l = [] ->
        extract_release_info r
        = Raise (ValueError "Linux x86_64 artifact not found in release"))
  /\ (forall r tag l, tag_name r = Some tag -> tag <> "" ->
        assets r = Some l ->
        filter is_x86_64 l <> [] -> filter is_aarch64 l = [] ->
        extract_release_info r
        = Raise (ValueError "Linux aarch64 artifact not found in release"))
  /\ (forall r tag a b n, tag_name r = Some tag -> tag <> "" ->
        last_linux_assets (get_assets r) a b ->
        name a = Some n ->
        (forall k v, ~ occurs_at n k v) ->
        extract_release_info r
        = Raise (ValueError
                   ("Could not extract version from asset name: " ++ n)))
  /\ (forall r tag a b n k v d, tag_name r = Some tag -> tag <> "" ->
        last_linux_assets (get_assets r) a b ->
        name a = Some n -> occurs_at n k v ->
        get_digest a = JStr d -> startswith d "sha256:" = false ->
        extract_release_info r
        = Raise (ValueError ("SHA256 digest not found for asset: " ++ n)))
  /\ (forall r tag a b n k v m d, tag_name r = Some tag -> tag <> "" ->
        last_linux_assets (get_assets r) a b ->
        name a = Some n -> occurs_at n k v ->
        sha256_digest a = true ->
        name b = Some m ->
        get_digest b = JStr d -> startswith d "sha256:" = false ->
        extract_release_info r
        = Raise (ValueError ("SHA256 digest not found for asset: " ++ m)))
  /\ (forall n m,
        NoDup ["Release tag not found in API response";
               "No assets found in release";
               "Linux x86_64 artifact not found in release";
               "Linux aarch64 artifact not found in release";
               "Could not extract version from asset name: " ++ n;
               "SHA256 digest not found for asset: " ++ m]).
Proof.
  repeat apply conj.
  - intros r Hm.
    destruct (extract_release_info r) as [i|e] eqn:E.
    + now apply (malformed_not_ok r i) in Hm.
    + eauto.
  - intros r [H|H]; unfold extract_release_info; now rewrite H.
  - intros r tag Ht Hne Ha. unfold extract_release_info, get_assets.
    rewrite Ht. destruct tag; [congruence|].
    destruct Ha as [-> | ->]; reflexivity.
  - intros r tag l Ht Hne Hl Hn Hx.
    unfold extract_release_info. rewrite Ht, (get_assets_some r l Hl).
    destruct tag; [congruence|]. destruct l as [|x l]; [congruence|].
    pose proof (find_linux_assets_no_x86_64 _ Hx) as Hf.
    destruct (find_linux_assets (x :: l)) as [[a0|] o]; [discriminate Hf|].
    reflexivity.
  - intros r tag l Ht Hne Hl Hx Hy.
    unfold extract_release_info. rewrite Ht, (get_assets_some r l Hl).
    destruct tag; [congruence|].
    destruct l as [|x l]; [now (exfalso; apply Hx)|].
    pose proof (find_linux_assets_no_aarch64 _ Hy) as Hf.
    destruct (find_linux_assets_some_x86_64 _ Hx) as [a0 Ha].
    destruct (find_linux_assets (x :: l)) as [o1 o2]; simpl in *; subst.
    reflexivity.
  - intros r tag a b n Ht Hne Hl Hn Hno.
    rewrite (extract_release_info_selected r tag a b Ht Hne Hl).
    rewrite Hn; simpl get_default. now rewrite (no_occurrence_search n Hno).
  - intros r tag a b n k v d Ht Hne Hl Hn Ho Hg Hd.
    rewrite (extract_release_info_selected r tag a b Ht Hne Hl).
    rewrite Hn; simpl get_default.
    destruct (occurs_at_search _ _ _ Ho) as [v' ->].
    now rewrite (extract_sha256_cases a n Hn), Hg, Hd.
  - intros r tag a b n k v m d Ht Hne Hl Hn Ho Hd Hm Hg Hd'.
    rewrite (extract_release_info_selected r tag a b Ht Hne Hl).
    rewrite Hn; simpl get_default.
    destruct (occurs_at_search _ _ _ Ho) as [v' ->].
    rewrite (extract_sha256_cases a n Hn), (extract_sha256_cases b m Hm), Hg, Hd'.
    unfold sha256_digest in Hd.
    destruct (get_digest a) as [|d1]; [discriminate Hd|]. now rewrite Hd.
  - intros n m.
    repeat (constructor; [simpl; intuition discriminate|]). constructor.
Qed.

Lemma occurs_2_3_3 (pre post : string) :
  occurs_at (pre ++ "Keyguard-2.3.3-linux" ++ post) (String.length pre) "2.3.3".
Proof.
  exists pre, post; repeat split.
  exists "2", "3", "3"; repeat split.
Qed.

Lemma extract_release_info_failures_witness :
  extract_release_info release_no_tag
  = Raise (ValueError "Release tag not found in API response")
  /\ extract_release_info release_no_assets
     = Raise (ValueError "No assets found in release")
  /\ extract_release_info release_no_x86_64
     = Raise (ValueError "Linux x86_64 artifact not found in release")
  /\ extract_release_info release_no_aarch64
     = Raise (ValueError "Linux aarch64 artifact not found in release")
  /\ extract_release_info release_unversioned
     = Raise (ValueError "Could not extract version from asset name: Keyguard-latest-linux-x86_64.tar.gz")
  /\ extract_release_info release_no_digest
     = Raise (ValueError "SHA256 digest not found for asset: Keyguard-2.3.3-linux-x86_64.tar.gz")
  /\ extract_release_info release_md5
     = Raise (ValueError "SHA256 digest not found for asset: Keyguard-2.3.3-linux-aarch64.tar.gz").
Proof.
  destruct extract_release_info_failures
    as [_ [Htag [Hassets [Hx [Ha [Hv [Hd1 [Hd2 _]]]]]]]].
  repeat apply conj.
  - apply Htag; left; reflexivity.
  - apply (Hassets release_no_assets "v2.3.3");
      [reflexivity | discriminate | left; reflexivity].
  - apply (Hx release_no_x86_64 "v2.3.3" [asset_deb; asset_aarch64]);
      try reflexivity; discriminate.
  - apply (Ha release_no_aarch64 "v2.3.3" [asset_deb; asset_x86_64]);
      try reflexivity; discriminate.
  - apply (Hv release_unversioned "v2.3.3" asset_unversioned asset_aarch64);
      try reflexivity; try discriminate.
    + exists [], []; split; reflexivity.
    + apply re_search_version_none; reflexivity.
  - apply (Hd1 release_no_digest "v2.3.3" asset_no_digest asset_aarch64
               "Keyguard-2.3.3-linux-x86_64.tar.gz" 0 "2.3.3" "");
      try reflexivity; try discriminate.
    + exists [], []; split; reflexivity.
    + apply (occurs_2_3_3 "" "-x86_64.tar.gz").
  - apply (Hd2 release_md5 "v2.3.3" asset_x86_64 asset_md5
               "Keyguard-2.3.3-linux-x86_64.tar.gz" 0 "2.3.3"
               "Keyguard-2.3.3-linux-aarch64.tar.gz"
               "md5:d41d8cd98f00b204e9800998ecf8427e");
      try reflexivity; try discriminate.
    + exists [], []; split; reflexivity.
    + apply (occurs_2_3_3 "" "-x86_64.tar.gz").
Defined.

(** C2. The code misses a case of the claim: a digest that is there and is
    [null] does not start with [sha256:], yet it is not reported with the
    message that names the asset.  With the tag, both assets and the version
    in order, a [null] digest on the x86_64 asset, or on the aarch64 asset
    once the x86_64 digest has passed, makes [digest.startswith] raise
    [AttributeError]; no [ValueError] is raised. *)
Theorem extract_release_info_null_digest
        (r : release) (tag : string) (a b : asset) (n : string)
        (k : nat) (v : string) :
  tag_name r = Some tag -> tag <> "" ->
  last_linux_assets (get_assets r) a b ->
  name a = Some n -> occurs_at n k v ->
  digest a = Some JNull
  \/ (sha256_digest a = true /\ digest b = Some JNull) ->
  extract_release_info r = Raise AttributeError
  /\ forall msg, extract_release_info r <> Raise (ValueError msg).
Proof.
  intros Ht Hne Hl Hn Ho Hd.
  assert (H : extract_release_info r = Raise AttributeError).
  { rewrite (extract_release_info_selected r tag a b Ht Hne Hl).
    rewrite Hn; simpl get_default.
    destruct (occurs_at_search _ _ _ Ho) as [v' ->].
    destruct (last_linux_assets_in _ _ _ Hl) as [_ [_ Hb]].
    rewrite (extract_sha256_cases a n Hn).
    rewrite (extract_sha256_cases b _ (is_aarch64_name b Hb)).
    unfold sha256_digest, get_digest in *.
    destruct Hd as [-> | [Ha ->]]; [reflexivity|].
    destruct (digest a) as [[|d]|]; cbv beta iota in Ha;
      [discriminate Ha | | discriminate Ha].
    rewrite Ha. reflexivity. }
  split; [exact H|]. intros msg. rewrite H. discriminate.
Qed.

Lemma extract_release_info_null_digest_witness :
  extract_release_info release_null_digest = Raise AttributeError
  /\ forall msg,
       extract_release_info release_null_digest <> Raise (ValueError msg).
Proof.
  apply (extract_release_info_null_digest
           release_null_digest "v2.3.3" asset_null_digest asset_aarch64
           "Keyguard-2.3.3-linux-x86_64.tar.gz" 0 "2.3.3");
    try reflexivity.
  - discriminate.
  - exists [], []; split; reflexivity.
  - apply (occurs_2_3_3 "" "-x86_64.tar.gz").
  - left; reflexivity.
Defined.

(** C8 (as amended). A returned version matches [\d+\.\d+\.\d+] in full; each
    returned hash is whatever follows [sha256:] in the digest of the asset
    chosen for its architecture, of any length and alphabet. *)
Theorem extract_release_info_shape (r : release) (v t h1 h2 : string) :
  extract_release_info r = Ok (v, t, h1, h2) ->
  is_version v
  /\ exists a b, last_linux_assets (get_assets r) a b
                 /\ digest a = Some (JStr ("sha256:" ++ h1))
                 /\ digest b = Some (JStr ("sha256:" ++ h2)).
Proof.
  intros H.
  apply extract_release_info_ok_inv in H
    as [_ [_ [a [b [Hl [Hv [H1 H2]]]]]]].
  split.
  - apply re_search_version_first in Hv as [k [[pre [post [_ [_ Hv]]]] _]].
    exact Hv.
  - exists a, b; auto using extract_sha256_inv.
Qed.

Lemma extract_release_info_shape_witness :
  is_version "2.3.3"
  /\ exists a b, last_linux_assets (get_assets release_2_3_3) a b
                 /\ digest a = Some (JStr ("sha256:" ++ hash_a))
                 /\ digest b = Some (JStr ("sha256:" ++ hash_b)).
Proof.
  apply (extract_release_info_shape release_2_3_3 "2.3.3" "v2.3.3" hash_a hash_b).
  reflexivity.
Defined.

(** C8, refuted as stated: the hashes are not checked to be 64 hexadecimal
    characters. *)
Lemma extract_release_info_hash_unchecked :
  extract_release_info release_odd_digests
  = Ok ("2.3.3", "v2.3.3", "not-a-hash", "")
  /\ is_sha256_hex "not-a-hash" = false
  /\ is_sha256_hex "" = false.
Proof. repeat split. Qed.

(** C9. Last match wins.  When several assets end with the suffix of one
    architecture, the scan keeps the last of them in list order, and the
    extraction uses those two and no other: it returns the version that
    stands leftmost in the last x86_64 name and the hashes of the last two
    digests whenever these are in order, whatever the earlier duplicates
    hold; every result it returns is read from the last two assets; and the
    result is the one of the release that holds only those two. *)
Theorem extract_release_info_last_wins
        (r : release) (tag : string) (a b : asset) :
  tag_name r = Some tag -> tag <> "" ->
  last_linux_assets (get_assets r) a b ->
  find_linux_assets (get_assets r) = (Some a, Some b)
  /\ (forall v h1 h2,
        first_version (get_default (name a)) v ->
        digest a = Some (JStr ("sha256:" ++ h1)) ->
        digest b = Some (JStr ("sha256:" ++ h2)) ->
        extract_release_info r = Ok (v, tag, h1, h2))
  /\ (forall v t h1 h2,
        extract_release_info r = Ok (v, t, h1, h2) ->
        first_version (get_default (name a)) v
        /\ digest a = Some (JStr ("sha256:" ++ h1))
        /\ digest b = Some (JStr ("sha256:" ++ h2)))
  /\ extract_release_info r
     = extract_release_info {| tag_name := Some tag; assets := Some [a; b] |}.
Proof.
  intros Ht Hne Hl.
  destruct (last_linux_assets_in _ _ _ Hl) as [[_ Ha] [_ Hb]].
  assert (Hl' : last_linux_assets [a; b] a b).
  { exists [], []; simpl.
    rewrite Ha, Hb, (suffix_exclusive a Ha).
    destruct (is_x86_64 b) eqn:E; [|auto].
    apply suffix_exclusive in E; congruence. }
  split; [now apply find_linux_assets_last|]. split; [|split].
  - intros v h1 h2 Hv H1 H2.
    rewrite (extract_release_info_selected r tag a b Ht Hne Hl).
    rewrite (first_version_search _ _ Hv).
    now rewrite (extract_sha256_ok _ _ H1), (extract_sha256_ok _ _ H2).
  - intros v t h1 h2 H.
    apply extract_release_info_ok_inv in H
      as [_ [_ [a' [b' [Hl2 [Hv [H1 H2]]]]]]].
    destruct (last_linux_assets_unique _ _ _ _ _ Hl Hl2) as [<- <-].
    auto using re_search_version_first, extract_sha256_inv.
  - rewrite (extract_release_info_selected r tag a b Ht Hne Hl).
    now rewrite (extract_release_info_selected
                   {| tag_name := Some tag; assets := Some [a; b] |}
                   tag a b eq_refl Hne Hl').
Qed.

Lemma extract_release_info_last_wins_witness :
  find_linux_assets (get_assets release_duplicates)
  = (Some asset_x86_64, Some asset_aarch64)
  /\ extract_release_info release_duplicates
     = Ok ("2.3.3", "v2.3.3", hash_a, hash_b).
Proof.
  assert (Hne : "v2.3.3" <> "") by discriminate.
  assert (Hl : last_linux_assets (get_assets release_duplicates)
                                 asset_x86_64 asset_aarch64).
  { exists [asset_x86_64_old], [asset_aarch64_old]; split; reflexivity. }
  destruct (extract_release_info_last_wins
              release_duplicates "v2.3.3" asset_x86_64 asset_aarch64
              eq_refl Hne Hl) as [Hf [Hok _]].
  split; [exact Hf|].
  apply (Hok "2.3.3" hash_a hash_b); try reflexivity.
  apply (first_version_anchored "2.3.3" "-x86_64.tar.gz").
  exists "2", "3", "3"; repeat split.
Defined.

(** C10 (as amended). The version search is not anchored: in a release with
    a non-empty tag, whose chosen (last) x86_64 and aarch64 assets both have
    a digest that starts with [sha256:], whenever the name of the chosen
    x86_64 asset holds [Keyguard-<digits>.<digits>.<digits>-linux] anywhere,
    extraction succeeds and returns the version of the leftmost such
    occurrence. *)
Theorem extract_release_info_unanchored
        (r : release) (tag : string) (a b : asset) (n : string)
        (k : nat) (v0 h1 h2 : string) :
  tag_name r = Some tag -> tag <> "" ->
  last_linux_assets (get_assets r) a b ->
  name a = Some n -> occurs_at n k v0 ->
  digest a = Some (JStr ("sha256:" ++ h1)) ->
  digest b = Some (JStr ("sha256:" ++ h2)) ->
  exists v, first_version n v
            /\ extract_release_info r = Ok (v, tag, h1, h2).
Proof.
  intros Ht Hne Hl Hn Ho H1 H2.
  destruct (occurs_at_search _ _ _ Ho) as [v Hv].
  exists v; split; [now apply re_search_version_first|].
  rewrite (extract_release_info_selected r tag a b Ht Hne Hl).
  rewrite Hn; simpl get_default. rewrite Hv.
  now rewrite (extract_sha256_ok _ _ H1), (extract_sha256_ok _ _ H2).
Qed.

Lemma extract_release_info_unanchored_witness :
  exists v,
    first_version
      "nightly-Keyguard-2.3.3-linux-Keyguard-9.9.9-linux-x86_64.tar.gz" v
    /\ extract_release_info release_prefixed = Ok (v, "v2.3.3", hash_a, hash_b).
Proof.
  apply (extract_release_info_unanchored release_prefixed "v2.3.3"
           asset_prefixed asset_aarch64
           "nightly-Keyguard-2.3.3-linux-Keyguard-9.9.9-linux-x86_64.tar.gz"
           8 "2.3.3" hash_a hash_b); try reflexivity.
  - discriminate.
  - exists [], []; split; reflexivity.
  - apply (occurs_2_3_3 "nightly-" "-Keyguard-9.9.9-linux-x86_64.tar.gz").
Defined.

(** C10, refuted as stated: an x86_64 name that holds the text is not enough
    for the extraction to succeed.  It raises when that asset has no
    digest; and also when the tag is missing, when there is no aarch64
    asset, when the aarch64 digest is no [sha256:] digest, and when a later
    x86_64 asset shows no version. *)
Lemma extract_release_info_unanchored_refuted :
  (is_x86_64 asset_no_digest = true
   /\ occurs_at "Keyguard-2.3.3-linux-x86_64.tar.gz" 0 "2.3.3"
   /\ name asset_no_digest = Some "Keyguard-2.3.3-linux-x86_64.tar.gz"
   /\ extract_release_info release_no_digest
      = Raise (ValueError "SHA256 digest not found for asset: Keyguard-2.3.3-linux-x86_64.tar.gz"))
  /\ (is_x86_64 asset_x86_64 = true
      /\ name asset_x86_64 = Some "Keyguard-2.3.3-linux-x86_64.tar.gz"
      /\ extract_release_info release_no_tag
         = Raise (ValueError "Release tag not found in API response")
      /\ extract_release_info release_no_aarch64
         = Raise (ValueError "Linux aarch64 artifact not found in release")
      /\ extract_release_info release_md5
         = Raise (ValueError "SHA256 digest not found for asset: Keyguard-2.3.3-linux-aarch64.tar.gz")
      /\ extract_release_info release_unversioned_last
         = Raise (ValueError "Could not extract version from asset name: Keyguard-latest-linux-x86_64.tar.gz")).
Proof.
  repeat split. apply (occurs_2_3_3 "" "-x86_64.tar.gz").
Qed.

End Extraction.

(* ================================================================= *)
(** ** The manifest update *)

Section ManifestUpdate.

Lemma rewrite_line_field (b : bool) (v t h1 h2 : string) (f : field) (l : string) :
  fullmatch (field_re f) l = true ->
  rewrite_line b v t h1 h2 l = new_line b v t h1 h2 f l.
Proof.
  intros Hf. unfold rewrite_line.
  destruct (find (fun g => fullmatch (field_re g) l) all_fields) as [g|] eqn:E.
  - apply find_some in E as [_ Hg].
    now rewrite (fullmatch_exclusive g f l Hg Hf).
  - exfalso. apply find_none with (x := f) in E; [congruence|].
    destruct f; simpl; auto 6.
Qed.

Lemma rewrite_line_other (b : bool) (v t h1 h2 l : string) :
  other_line l = true -> rewrite_line b v t h1 h2 l = l.
Proof.
  intros Ho. unfold rewrite_line.
  destruct (find (fun g => fullmatch (field_re g) l) all_fields) as [g|] eqn:E;
    [|reflexivity].
  apply find_some in E as [_ Hg].
  rewrite (other_line_miss l g Ho) in Hg. discriminate.
Qed.

Lemma field_or_other (l : string) :
  (exists f, fullmatch (field_re f) l = true) \/ other_line l = true.
Proof.
  unfold other_line, all_fields; cbn [forallb].
  destruct (fullmatch (field_re Pkgver) l) eqn:E1; [left; eauto|].
  destruct (fullmatch (field_re Pkgrel) l) eqn:E2; [left; eauto|].
  destruct (fullmatch (field_re ReleaseTag) l) eqn:E3; [left; eauto|].
  destruct (fullmatch (field_re Sha256sums_x86_64) l) eqn:E4; [left; eauto|].
  destruct (fullmatch (field_re Sha256sums_aarch64) l) eqn:E5; [left; eauto|].
  right; reflexivity.
Qed.

(** Rewriting keeps every line in its field, except that an empty version
    leaves [pkgver=] behind, which is no [pkgver] line any more. *)
Lemma fullmatch_rewrite_line (b : bool) (v t h1 h2 : string) (f : field)
      (l : string) :
  v <> "" \/ f <> Pkgver ->
  fullmatch (field_re f) (rewrite_line b v t h1 h2 l)
  = fullmatch (field_re f) l.
Proof.
  intros Hv.
  destruct (field_or_other l) as [[g Hg]|Ho].
  - rewrite (rewrite_line_field b v t h1 h2 g l Hg).
    destruct (fullmatch (field_re f) l) eqn:Hf.
    + rewrite (fullmatch_exclusive g f l Hg Hf) in *.
      destruct Hv as [Hv|Hv]; [now apply fullmatch_new_line|].
      destruct f; try congruence.
      * apply (fullmatch_new_line b "x" t h1 h2 Pkgrel l);
          [discriminate | exact Hf].
      * apply (fullmatch_new_line b "x" t h1 h2 ReleaseTag l);
          [discriminate | exact Hf].
      * apply (fullmatch_new_line b "x" t h1 h2 Sha256sums_x86_64 l);
          [discriminate | exact Hf].
      * apply (fullmatch_new_line b "x" t h1 h2 Sha256sums_aarch64 l);
          [discriminate | exact Hf].
    + apply fullmatch_new_line_other; [|exact Hg].
      intros ->; congruence.
  - now rewrite rewrite_line_other.
Qed.

Lemma filter_map_same {A : Type} (f : A -> bool) (g : A -> A) (l : list A) :
  (forall x, f (g x) = f x) -> filter f (map g l) = map g (filter f l).
Proof.
  intros H; induction l as [|x l IH]; simpl; [reflexivity|].
  rewrite H. destruct (f x); simpl; now rewrite IH.
Qed.

Lemma no_lf_new_line (b : bool) (v t h1 h2 : string) (f : field) (l : string) :
  plain v = true -> plain t = true -> plain h1 = true -> plain h2 = true ->
  no_lf l = true -> no_lf (new_line b v t h1 h2 f l) = true.
Proof.
  intros Hv Ht H1 H2 Hl.
  destruct f; unfold new_line; try (destruct b; [reflexivity | exact Hl]);
    apply plain_no_lf; rewrite ?plain_app, ?Hv, ?Ht, ?H1, ?H2; reflexivity.
Qed.

Lemma no_lf_rewrite_line (b : bool) (v t h1 h2 l : string) :
  plain v = true -> plain t = true -> plain h1 = true -> plain h2 = true ->
  no_lf l = true -> no_lf (rewrite_line b v t h1 h2 l) = true.
Proof.
  intros Hv Ht H1 H2 Hl.
  destruct (field_or_other l) as [[g Hg]|Ho].
  - rewrite (rewrite_line_field b v t h1 h2 g l Hg). now apply no_lf_new_line.
  - now rewrite rewrite_line_other.
Qed.

(** With plain release strings a successful update keeps the line structure:
    line [i] of the result is line [i] of the manifest, rewritten. *)
Lemma update_pkgbuild_ok_lines (c v t h1 h2 out : string) :
  plain v = true -> plain t = true -> plain h1 = true -> plain h2 = true ->
  update_pkgbuild c v t h1 h2 = Ok out ->
  lines out = map (rewrite_line (version_changes c v) v t h1 h2) (lines c).
Proof.
  intros Hv Ht H1 H2 H.
  rewrite update_pkgbuild_plain in H by assumption.
  unfold update_by_lines in H.
  destruct (find _ all_fields); [discriminate|].
  injection H as <-.
  apply lines_join; [apply map_not_nil, lines_not_nil|].
  apply Forall_forall; intros l Hin.
  apply in_map_iff in Hin as [l' [<- Hin]].
  apply no_lf_rewrite_line; try assumption.
  pose proof (lines_no_lf c) as Hf.
  rewrite Forall_forall in Hf. now apply Hf.
Qed.

(** With plain release strings the update succeeds exactly when no required
    field is absent. *)
Lemma update_pkgbuild_ok_iff (c v t h1 h2 : string) :
  plain v = true -> plain t = true -> plain h1 = true -> plain h2 = true ->
  (forall f, required c v f = true -> absent f c = false) ->
  update_pkgbuild c v t h1 h2
  = Ok (join (map (rewrite_line (version_changes c v) v t h1 h2) (lines c))).
Proof.
  intros Hv Ht H1 H2 Hp.
  rewrite update_pkgbuild_plain by assumption.
  unfold update_by_lines.
  destruct (find _ all_fields) as [f|] eqn:E; [|reflexivity].
  apply find_some in E as [_ E].
  apply andb_true_iff in E as [Hr Ha].
  rewrite (Hp f Hr) in Ha. discriminate.
Qed.

Lemma update_pkgbuild_ok_present (c v t h1 h2 out : string) (f : field) :
  plain v = true -> plain t = true -> plain h1 = true -> plain h2 = true ->
  update_pkgbuild c v t h1 h2 = Ok out ->
  required c v f = true -> absent f c = false.
Proof.
  intros Hv Ht H1 H2 H Hr.
  rewrite update_pkgbuild_plain in H by assumption.
  unfold update_by_lines in H.
  destruct (find _ all_fields) as [g|] eqn:E; [discriminate|].
  apply find_none with (x := f) in E.
  - rewrite Hr in E. exact E.
  - destruct f; simpl; auto 6.
Qed.

Lemma absent_field_lines (f : field) (c : string) :
  absent f c = false <-> field_lines f c <> [].
Proof.
  unfold absent; destruct (field_lines f c); split; congruence.
Qed.

Lemma well_formed_present (c : string) (f : field) :
  well_formed c -> absent f c = false.
Proof.
  intros H; apply absent_field_lines; intros E.
  specialize (H f); rewrite E in H; discriminate.
Qed.

Lemma well_formed_line (c : string) (f : field) (l : string) :
  well_formed c -> In l (lines c) -> fullmatch (field_re f) l = true ->
  field_lines f c = [l].
Proof.
  intros H Hin Hm. specialize (H f).
  assert (Hl : In l (field_lines f c)) by (apply filter_In; auto).
  destruct (field_lines f c) as [|x [|y xs]]; try discriminate.
  destruct Hl as [->|[]]; reflexivity.
Qed.

(** The lines of a field after the update are the rewritten lines of that
    field. *)
Lemma field_lines_updated (c v t h1 h2 out : string) (f : field) :
  plain v = true -> plain t = true -> plain h1 = true -> plain h2 = true ->
  v <> "" \/ f <> Pkgver ->
  update_pkgbuild c v t h1 h2 = Ok out ->
  field_lines f out
  = map (rewrite_line (version_changes c v) v t h1 h2) (field_lines f c).
Proof.
  intros Hv Ht H1 H2 Hne H. unfold field_lines.
  rewrite (update_pkgbuild_ok_lines c v t h1 h2 out Hv Ht H1 H2 H).
  apply filter_map_same; intros l. now apply fullmatch_rewrite_line.
Qed.

(** C3 (as amended). The pkgrel reset law.  In a manifest that holds each of
    the five fields on exactly one line, with [pkgver=1.0.0] and [pkgrel=5],
    and for a tag and hashes free of line feeds and backslashes, an update
    to version [1.0.0] leaves the [pkgrel] line as it was, and an update to
    [1.0.1], or to any string free of line feeds and backslashes other than
    ["1.0.0"] (the comparison is string equality), yields [pkgrel=1]. *)
Theorem pkgrel_reset_law (c t h1 h2 : string) :
  well_formed c ->
  In "pkgver=1.0.0" (lines c) -> In "pkgrel=5" (lines c) ->
  plain t = true -> plain h1 = true -> plain h2 = true ->
  (exists out,
      update_pkgbuild c "1.0.0" t h1 h2 = Ok out
      /\ field_lines Pkgrel out = ["pkgrel=5"]
      /\ forall i, nth_error (lines c) i = Some "pkgrel=5" ->
                   nth_error (lines out) i = Some "pkgrel=5")
  /\ (exists out,
         update_pkgbuild c "1.0.1" t h1 h2 = Ok out
         /\ field_lines Pkgrel out = ["pkgrel=1"])
  /\ (forall v, plain v = true -> v <> "1.0.0" ->
        exists out,
          update_pkgbuild c v t h1 h2 = Ok out
          /\ field_lines Pkgrel out = ["pkgrel=1"]).
Proof.
  intros Hwf Hver Hrel Ht H1 H2.
  pose proof (well_formed_line c Pkgver "pkgver=1.0.0" Hwf Hver eq_refl) as Hpv.
  pose proof (well_formed_line c Pkgrel "pkgrel=5" Hwf Hrel eq_refl) as Hpr.
  assert (Hch : forall v, version_changes c v = negb (String.eqb "1.0.0" v)).
  { intros v; unfold version_changes; rewrite Hpv; reflexivity. }
  assert (Hok : forall v, plain v = true ->
            exists out,
              update_pkgbuild c v t h1 h2 = Ok out
              /\ lines out
                 = map (rewrite_line (negb (String.eqb "1.0.0" v)) v t h1 h2)
                       (lines c)
              /\ field_lines Pkgrel out
                 = [if String.eqb "1.0.0" v then "pkgrel=5" else "pkgrel=1"]).
  { intros v Hv.
    assert (Hu : update_pkgbuild c v t h1 h2
                 = Ok (join (map (rewrite_line (version_changes c v) v t h1 h2)
                                 (lines c)))).
    { apply update_pkgbuild_ok_iff; try assumption.
      intros f _; now apply well_formed_present. }
    pose proof (update_pkgbuild_ok_lines c v t h1 h2 _ Hv Ht H1 H2 Hu) as Hl.
    assert (Hne : v <> "" \/ Pkgrel <> Pkgver) by (right; discriminate).
    pose proof (field_lines_updated c v t h1 h2 _ Pkgrel Hv Ht H1 H2 Hne Hu)
      as Hf.
    rewrite Hpr in Hf. cbn [map] in Hf.
    rewrite (rewrite_line_field (version_changes c v) v t h1 h2 Pkgrel
               "pkgrel=5" eq_refl) in Hf.
    rewrite (Hch v) in Hu, Hl, Hf.
    eexists; split; [exact Hu|]. split; [exact Hl|].
    rewrite Hf. destruct (String.eqb "1.0.0" v); reflexivity. }
  split; [|split].
  - destruct (Hok "1.0.0" eq_refl) as [out [Hu [Hl Hf]]].
    exists out; split; [exact Hu|]. split; [exact Hf|].
    intros i Hi. rewrite Hl, nth_error_map, Hi; cbn [option_map].
    now rewrite (rewrite_line_field _ "1.0.0" t h1 h2 Pkgrel "pkgrel=5" eq_refl).
  - destruct (Hok "1.0.1" eq_refl) as [out [Hu [_ Hf]]].
    exists out; auto.
  - intros v Hv Hne. destruct (Hok v Hv) as [out [Hu [_ Hf]]].
    exists out; split; [exact Hu|].
    rewrite Hf. destruct (String.eqb_spec "1.0.0" v); congruence.
Qed.

Lemma pkgrel_reset_law_witness :
  (exists out,
      update_pkgbuild manifest_1_0_0 "1.0.0" "r2" "abc" "def" = Ok out
      /\ field_lines Pkgrel out = ["pkgrel=5"]
      /\ forall i, nth_error (lines manifest_1_0_0) i = Some "pkgrel=5" ->
                   nth_error (lines out) i = Some "pkgrel=5")
  /\ (exists out,
         update_pkgbuild manifest_1_0_0 "1.0.1" "r2" "abc" "def" = Ok out
         /\ field_lines Pkgrel out = ["pkgrel=1"])
  /\ (forall v, plain v = true -> v <> "1.0.0" ->
        exists out,
          update_pkgbuild manifest_1_0_0 v "r2" "abc" "def" = Ok out
          /\ field_lines Pkgrel out = ["pkgrel=1"]).
Proof.
  apply (pkgrel_reset_law manifest_1_0_0 "r2" "abc" "def"); try reflexivity.
  - intros f; destruct f; reflexivity.
  - simpl; auto.
  - simpl; auto.
Defined.

(** C3, refuted as stated: the two lines alone do not decide what happens
    to [pkgrel].  When [pkgver=1.0.0] is not the first [pkgver] line, the
    update to [1.0.0] resets [pkgrel]; without a [_releaseTag] line the
    update to [1.0.1] raises; so it does when the tag or a hash holds a bad
    escape; and a tag with a line feed can leave a second [pkgrel] line. *)
Lemma pkgrel_reset_law_refuted :
  (In "pkgver=1.0.0" (lines manifest_1_0_0_second)
   /\ In "pkgrel=5" (lines manifest_1_0_0_second)
   /\ update_pkgbuild manifest_1_0_0_second "1.0.0" "r2" "abc" "def"
      = Ok (join ["pkgver=1.0.0"; "pkgver=1.0.0"; "pkgrel=1"; "_releaseTag='r2'";
                  "sha256sums_x86_64=('abc')"; "sha256sums_aarch64=('def')"; ""]))
  /\ (In "pkgver=1.0.0" (lines manifest_1_0_0_no_tag)
      /\ In "pkgrel=5" (lines manifest_1_0_0_no_tag)
      /\ update_pkgbuild manifest_1_0_0_no_tag "1.0.1" "r2" "abc" "def"
         = Raise (ValueError "_releaseTag not found in PKGBUILD"))
  /\ (In "pkgver=1.0.0" (lines manifest_1_0_0)
      /\ In "pkgrel=5" (lines manifest_1_0_0)
      /\ update_pkgbuild manifest_1_0_0 "1.0.1" ("v" ++ escape "d") "abc" "def"
         = Raise ReError
      /\ update_pkgbuild manifest_1_0_0 "1.0.1" "r2" ("v" ++ escape "d") "def"
         = Raise ReError
      /\ update_pkgbuild manifest_1_0_0 "1.0.1" tag_with_pkgrel_line "abc" "def"
         = Ok (join ["pkgname=keyguard-bin"; "pkgver=1.0.1"; "pkgrel=1";
                     "_releaseTag='r2"; "pkgrel=7'";
                     "sha256sums_x86_64=('abc')"; "sha256sums_aarch64=('def')";
                     ""])).
Proof.
  repeat split; simpl; auto.
Qed.

Lemma find_first_required (P : field -> bool) (f : field) :
  P f = true ->
  exists g, find P all_fields = Some g
            /\ field_index g <= field_index f /\ P g = true.
Proof.
  intros Hf. unfold all_fields; cbn [find].
  destruct (P Pkgver) eqn:E1;
    [exists Pkgver; repeat split; [simpl; lia | assumption]|].
  destruct (P Pkgrel) eqn:E2;
    [exists Pkgrel; repeat split; [destruct f; simpl; (lia || congruence) | assumption]|].
  destruct (P ReleaseTag) eqn:E3;
    [exists ReleaseTag; repeat split; [destruct f; simpl; (lia || congruence) | assumption]|].
  destruct (P Sha256sums_x86_64) eqn:E4;
    [exists Sha256sums_x86_64; repeat split; [destruct f; simpl; (lia || congruence) | assumption]|].
  destruct (P Sha256sums_aarch64) eqn:E5;
    [exists Sha256sums_aarch64; repeat split; [destruct f; simpl; (lia || congruence) | assumption]|].
  destruct f; congruence.
Qed.

(** C4 (as amended). With release strings free of line feeds and
    backslashes, a manifest that lacks a field the update looks for --
    [pkgver], [_releaseTag] and the two checksum fields always, [pkgrel] only
    when the version changes -- makes the update fail with the error that
    names the first such field; the five messages differ. *)
Theorem update_pkgbuild_missing_field (c v t h1 h2 : string) (f : field) :
  plain v = true -> plain t = true -> plain h1 = true -> plain h2 = true ->
  required c v f = true -> absent f c = true ->
  (exists g, field_index g <= field_index f
             /\ required c v g = true /\ absent g c = true
             /\ update_pkgbuild c v t h1 h2 = Raise (not_found g))
  /\ (forall g g', not_found g = not_found g' -> g = g').
Proof.
  intros Hv Ht H1 H2 Hr Ha. split.
  - rewrite update_pkgbuild_plain by assumption. unfold update_by_lines.
    destruct (find_first_required
                (fun g => required c v g && absent g c) f) as [g [Hg [Hi HP]]].
    { now rewrite Hr, Ha. }
    rewrite Hg. apply andb_true_iff in HP as [HP1 HP2].
    exists g; auto.
  - intros g g' H. destruct g, g'; try reflexivity; discriminate H.
Qed.

Lemma update_pkgbuild_missing_field_witness :
  (exists g, field_index g <= field_index Sha256sums_x86_64
             /\ required manifest_no_x86_64 "2.3.3" g = true
             /\ absent g manifest_no_x86_64 = true
             /\ update_pkgbuild manifest_no_x86_64 "2.3.3" "v2.3.3" "abc" "def"
                = Raise (not_found g))
  /\ (forall g g', not_found g = not_found g' -> g = g').
Proof.
  apply (update_pkgbuild_missing_field
           manifest_no_x86_64 "2.3.3" "v2.3.3" "abc" "def" Sha256sums_x86_64);
    reflexivity.
Defined.

(** C4, refuted as stated: a manifest without [pkgrel] is updated without
    error when the version stays the same; and a field missing from the
    manifest can be supplied by a release tag that spans several lines. *)
Lemma update_pkgbuild_missing_field_tolerated :
  absent Pkgrel manifest_no_pkgrel = true
  /\ update_pkgbuild manifest_no_pkgrel "2.3.2" "v2.3.2" "abc" "def"
     = Ok (join ["pkgname=keyguard-bin"; "pkgver=2.3.2"; "_releaseTag='v2.3.2'";
                 "sha256sums_x86_64=('abc')"; "sha256sums_aarch64=('def')"])
  /\ absent Sha256sums_x86_64 manifest_no_x86_64 = true
  /\ update_pkgbuild manifest_no_x86_64 "2.3.3" tag_with_checksum_line
                     "abc" "def"
     = Ok (join ["pkgver=2.3.3"; "pkgrel=1"; "_releaseTag='v2.3.3";
                 "sha256sums_x86_64=('abc')"; "#'";
                 "sha256sums_aarch64=('def')"]).
Proof. repeat split. Qed.

(** Rewriting a rewritten line with the same strings and no [pkgrel] reset
    changes nothing more. *)
Lemma rewrite_line_twice (b : bool) (v t h1 h2 l : string) :
  v <> "" ->
  rewrite_line false v t h1 h2 (rewrite_line b v t h1 h2 l)
  = rewrite_line b v t h1 h2 l.
Proof.
  intros Hv.
  destruct (field_or_other l) as [[f Hf]|Ho].
  - rewrite (rewrite_line_field b v t h1 h2 f l Hf).
    rewrite (rewrite_line_field false v t h1 h2 f _
               (fullmatch_new_line b v t h1 h2 f l Hv Hf)).
    destruct f; reflexivity.
  - rewrite (rewrite_line_other b v t h1 h2 l Ho).
    now apply rewrite_line_other.
Qed.

(** C5 (as amended). The update is idempotent for release strings that hold
    no line feed and no backslash, the version not being empty: run again on
    its own result with the same strings it returns that result. *)
Theorem update_pkgbuild_idempotent (c v t h1 h2 out : string) :
  plain v = true -> plain t = true -> plain h1 = true -> plain h2 = true ->
  v <> "" ->
  update_pkgbuild c v t h1 h2 = Ok out ->
  update_pkgbuild out v t h1 h2 = Ok out.
Proof.
  intros Hv Ht H1 H2 Hne H.
  pose proof (update_pkgbuild_ok_lines c v t h1 h2 out Hv Ht H1 H2 H) as Hl.
  assert (Hfl : forall f, field_lines f out
                          = map (rewrite_line (version_changes c v) v t h1 h2)
                                (field_lines f c)).
  { intros f. apply field_lines_updated; auto. }
  assert (Hpv : absent Pkgver c = false).
  { apply (update_pkgbuild_ok_present c v t h1 h2 out Pkgver); auto. }
  assert (Hsame : version_changes out v = false).
  { unfold version_changes. rewrite (Hfl Pkgver).
    apply absent_field_lines in Hpv.
    destruct (field_lines Pkgver c) as [|l0 rest] eqn:E; [congruence|].
    assert (Hl0 : fullmatch (field_re Pkgver) l0 = true).
    { assert (Hin : In l0 (field_lines Pkgver c)) by (rewrite E; now left).
      now apply filter_In in Hin. }
    cbn [map].
    rewrite (rewrite_line_field _ v t h1 h2 Pkgver l0 Hl0).
    unfold new_line. change (drop 7 ("pkgver=" ++ v)) with v.
    now rewrite String.eqb_refl. }
  rewrite update_pkgbuild_ok_iff; try assumption.
  - rewrite Hsame, Hl, map_map. f_equal.
    rewrite <- (join_lines out), Hl. f_equal.
    apply map_ext; intros l. now apply rewrite_line_twice.
  - intros f Hr.
    assert (Hrc : required c v f = true).
    { destruct f; try reflexivity. simpl in Hr. congruence. }
    pose proof (update_pkgbuild_ok_present c v t h1 h2 out f Hv Ht H1 H2 H Hrc)
      as Hp.
    apply absent_field_lines in Hp. apply absent_field_lines.
    rewrite (Hfl f). destruct (field_lines f c); [congruence | discriminate].
Qed.

Lemma update_pkgbuild_idempotent_witness :
  update_pkgbuild manifest_2_3_3 "2.3.3" "v2.3.3" "abc123..." "def456..."
  = Ok manifest_2_3_3.
Proof.
  apply (update_pkgbuild_idempotent
           manifest_2_3_2 "2.3.3" "v2.3.3" "abc123..." "def456..."
           manifest_2_3_3); try reflexivity.
  discriminate.
Defined.

(** C5, refuted as stated: with a release tag that holds a line feed (the
    version and the hashes being of the documented shape) the second run
    differs from the first. *)
Lemma update_pkgbuild_not_idempotent :
  is_sha256_hex hash_a = true /\ is_sha256_hex hash_b = true
  /\ update_pkgbuild manifest_2_3_2 "2.3.3" tag_two_lines hash_a hash_b
     = Ok manifest_once
  /\ update_pkgbuild manifest_once "2.3.3" tag_two_lines hash_a hash_b
     = Ok manifest_twice
  /\ manifest_twice <> manifest_once.
Proof.
  repeat split.
  intros H. apply (f_equal String.length) in H. discriminate H.
Qed.

(** C6. Frame: a successful update changes nothing outside the lines of the
    five fields.  The result is the manifest with each line replaced by a
    piece of text, and the piece for a line that matches none of the five
    patterns is that line; with release strings free of line feeds and
    backslashes the pieces are single lines, so line [i] of the result is
    line [i] of the manifest whenever that is no field line. *)
Theorem update_pkgbuild_frame (c v t h1 h2 out : string) :
  update_pkgbuild c v t h1 h2 = Ok out ->
  (exists pieces,
      out = join pieces
      /\ Forall2 (fun l p => other_line l = true -> p = l) (lines c) pieces)
  /\ (plain v = true -> plain t = true -> plain h1 = true -> plain h2 = true ->
      List.length (lines out) = List.length (lines c)
      /\ forall i l, nth_error (lines c) i = Some l -> other_line l = true ->
                     nth_error (lines out) i = Some l).
Proof.
  intros H. split.
  - destruct (update_pkgbuild_pieces c v t h1 h2 out H) as [G [-> HG]].
    exists (map G (lines c)); split; [reflexivity|].
    generalize (lines c) (lines_no_lf c); intros ls Hf.
    induction Hf as [|l ls Hl _ IH]; simpl; constructor; auto.
  - intros Hv Ht H1 H2.
    rewrite (update_pkgbuild_ok_lines c v t h1 h2 out Hv Ht H1 H2 H).
    split; [apply length_map|].
    intros i l Hi Ho. rewrite nth_error_map, Hi; cbn [option_map].
    now rewrite rewrite_line_other.
Qed.

Lemma update_pkgbuild_frame_witness :
  (exists pieces,
      manifest_2_3_3 = join pieces
      /\ Forall2 (fun l p => other_line l = true -> p = l)
                 (lines manifest_2_3_2) pieces)
  /\ (plain "2.3.3" = true -> plain "v2.3.3" = true ->
      plain "abc123..." = true -> plain "def456..." = true ->
      List.length (lines manifest_2_3_3) = List.length (lines manifest_2_3_2)
      /\ forall i l, nth_error (lines manifest_2_3_2) i = Some l ->
                     other_line l = true ->
                     nth_error (lines manifest_2_3_3) i = Some l).
Proof.
  apply (update_pkgbuild_frame
           manifest_2_3_2 "2.3.3" "v2.3.3" "abc123..." "def456...").
  reflexivity.
Defined.

(** C7 (as amended). With release strings free of line feeds and
    backslashes, every line of the manifest that matches the pattern of a
    field is rewritten, however many there are ([re.subn] is called without
    a count), and lines keep their positions; so a field has exactly one
    line rewritten only when exactly one line matches. *)
Theorem update_pkgbuild_rewrites_all (c v t h1 h2 out : string) :
  plain v = true -> plain t = true -> plain h1 = true -> plain h2 = true ->
  update_pkgbuild c v t h1 h2 = Ok out ->
  List.length (lines out) = List.length (lines c)
  /\ forall f i l,
       nth_error (lines c) i = Some l -> fullmatch (field_re f) l = true ->
       nth_error (lines out) i
       = Some (new_line (version_changes c v) v t h1 h2 f l).
Proof.
  intros Hv Ht H1 H2 H.
  rewrite (update_pkgbuild_ok_lines c v t h1 h2 out Hv Ht H1 H2 H).
  split; [apply length_map|].
  intros f i l Hi Hf. rewrite nth_error_map, Hi; cbn [option_map].
  now rewrite (rewrite_line_field _ v t h1 h2 f l Hf).
Qed.

Lemma update_pkgbuild_rewrites_all_witness :
  List.length
    (lines (join ["pkgver=2.3.3"; "pkgver=2.3.3"; "pkgrel=1";
                  "_releaseTag='v2.3.3'"; "sha256sums_x86_64=('abc')";
                  "sha256sums_aarch64=('def')"]))
  = List.length (lines manifest_two_pkgver)
  /\ forall f i l,
       nth_error (lines manifest_two_pkgver) i = Some l ->
       fullmatch (field_re f) l = true ->
       nth_error
         (lines (join ["pkgver=2.3.3"; "pkgver=2.3.3"; "pkgrel=1";
                       "_releaseTag='v2.3.3'"; "sha256sums_x86_64=('abc')";
                       "sha256sums_aarch64=('def')"])) i
       = Some (new_line (version_changes manifest_two_pkgver "2.3.3")
                        "2.3.3" "v2.3.3" "abc" "def" f l).
Proof.
  apply (update_pkgbuild_rewrites_all
           manifest_two_pkgver "2.3.3" "v2.3.3" "abc" "def"); reflexivity.
Defined.

(** C7, refuted as stated: of two lines that match the [pkgver] pattern both
    are rewritten, in one substitution; and a substitution can rewrite a line
    that is none of the manifest: with a tag that spans several lines, one
    [sha256sums_x86_64] line is rewritten though the manifest has none. *)
Lemma update_pkgbuild_rewrites_both :
  field_lines Pkgver manifest_two_pkgver = ["pkgver=2.3.2"; "pkgver=0.0.1"]
  /\ re_subn pkgver_re "pkgver=2.3.3" manifest_two_pkgver
     = Ok (join ["pkgver=2.3.3"; "pkgver=2.3.3"; "pkgrel=3";
                 "_releaseTag='v2.3.2'"; "sha256sums_x86_64=('old1')";
                 "sha256sums_aarch64=('old2')"], 2)
  /\ update_pkgbuild manifest_two_pkgver "2.3.3" "v2.3.3" "abc" "def"
     = Ok (join ["pkgver=2.3.3"; "pkgver=2.3.3"; "pkgrel=1";
                 "_releaseTag='v2.3.3'"; "sha256sums_x86_64=('abc')";
                 "sha256sums_aarch64=('def')"])
  /\ field_lines Sha256sums_x86_64 manifest_no_x86_64 = []
  /\ update_pkgbuild manifest_no_x86_64 "2.3.3" tag_with_checksum_line
                     "abc" "def"
     = Ok (join ["pkgver=2.3.3"; "pkgrel=1"; "_releaseTag='v2.3.3";
                 "sha256sums_x86_64=('abc')"; "#'";
                 "sha256sums_aarch64=('def')"]).
Proof. repeat split. Qed.

End ManifestUpdate.

(* ================================================================= *)
(** ** More on the extraction *)

Section ExtractionMore.

Lemma rev_nil_inv {A : Type} (l : list A) : rev l = [] -> l = [].
Proof.
  intros H. rewrite <- (rev_involutive l), H. reflexivity.
Qed.

(** Every exception of [extract_release_info] comes with one of the listed
    defects. *)
Lemma extract_release_info_raise_malformed (r : release) (e : exn) :
  extract_release_info r = Raise e -> malformed r.
Proof.
  unfold extract_release_info; intros H.
  destruct (tag_name r) as [[|c tag]|] eqn:Et;
    try (apply tag_missing; now rewrite Et).
  destruct (get_assets r) as [|x l] eqn:El; [now apply assets_missing|].
  destruct (find_linux_assets (x :: l)) as [[a|] [b|]] eqn:Ef.
  - apply find_linux_assets_inv in Ef. rewrite <- El in Ef.
    destruct (last_linux_assets_in _ _ _ Ef) as [[_ Ha] [_ Hb]].
    unfold getitem_name in H. rewrite (is_x86_64_name _ Ha) in H.
    cbn [bind] in H.
    destruct (re_search_version (get_default (name a))) eqn:Ev.
    + apply (digest_malformed r a b Ef).
      rewrite (extract_sha256_cases a _ (is_x86_64_name _ Ha)) in H.
      rewrite (extract_sha256_cases b _ (is_aarch64_name _ Hb)) in H.
      unfold sha256_digest.
      destruct (get_digest a) as [|d1]; [now left|].
      destruct (startswith d1 "sha256:"); [|now left].
      destruct (get_digest b) as [|d2]; [now right|].
      destruct (startswith d2 "sha256:"); [|now right].
      discriminate H.
    + apply (version_unmatched r a b Ef).
      now apply re_search_version_none.
  - apply aarch64_missing. rewrite El.
    unfold find_linux_assets in Ef. rewrite fold_scan_asset in Ef.
    apply (f_equal snd) in Ef; cbn [snd fst] in Ef.
    destruct (rev (filter is_aarch64 (x :: l))) eqn:E; [|discriminate].
    now apply rev_nil_inv.
  - apply x86_64_missing. rewrite El.
    unfold find_linux_assets in Ef. rewrite fold_scan_asset in Ef.
    apply (f_equal fst) in Ef; cbn [snd fst] in Ef.
    destruct (rev (filter is_x86_64 (x :: l))) eqn:E; [|discriminate].
    now apply rev_nil_inv.
  - apply x86_64_missing. rewrite El.
    unfold find_linux_assets in Ef. rewrite fold_scan_asset in Ef.
    apply (f_equal fst) in Ef; cbn [snd fst] in Ef.
    destruct (rev (filter is_x86_64 (x :: l))) eqn:E; [|discriminate].
    now apply rev_nil_inv.
Qed.

(** X1. The listed defects are the only reasons to fail: extraction returns
    a result exactly when the release shows none of them. *)
Theorem extract_release_info_succeeds_iff (r : release) :
  (exists i, extract_release_info r = Ok i) <-> ~ malformed r.
Proof.
  split.
  - intros [i Hi] Hm. now apply (malformed_not_ok r i Hm).
  - intros Hm. destruct (extract_release_info r) as [i|e] eqn:E; [eauto|].
    exfalso. apply Hm. now apply (extract_release_info_raise_malformed r e).
Qed.

Lemma extract_release_info_succeeds_iff_witness :
  ~ malformed release_2_3_3.
Proof.
  apply (proj1 (extract_release_info_succeeds_iff release_2_3_3)).
  eexists; reflexivity.
Defined.

(** X3. Only the assets whose names end with one of the two suffixes count:
    two non-empty asset lists with the same x86_64 assets and the same
    aarch64 assets, in the same order, give the same result. *)
Theorem extract_release_info_other_assets
        (tag : option string) (l l' : list asset) :
  l <> [] -> l' <> [] ->
  filter is_x86_64 l = filter is_x86_64 l' ->
  filter is_aarch64 l = filter is_aarch64 l' ->
  extract_release_info {| tag_name := tag; assets := Some l |}
  = extract_release_info {| tag_name := tag; assets := Some l' |}.
Proof.
  intros Hl Hl' Hx Ha.
  assert (Hf : find_linux_assets l = find_linux_assets l').
  { unfold find_linux_assets. now rewrite !fold_scan_asset, Hx, Ha. }
  destruct l as [|x l]; [congruence|]. destruct l' as [|x' l']; [congruence|].
  unfold extract_release_info; cbn [tag_name assets get_assets].
  now rewrite Hf.
Qed.

Lemma extract_release_info_other_assets_witness :
  extract_release_info release_2_3_3
  = extract_release_info
      {| tag_name := Some "v2.3.3";
         assets := Some [asset_x86_64; asset_aarch64] |}.
Proof.
  apply (extract_release_info_other_assets
           (Some "v2.3.3") [asset_deb; asset_x86_64; asset_aarch64]
           [asset_x86_64; asset_aarch64]);
    try reflexivity; discriminate.
Defined.

(** X4. [extract_sha256] returns [h] exactly when the digest of the asset is
    ["sha256:"] followed by [h]: the prefix is compared as it stands and
    removed once. *)
Theorem extract_sha256_iff (a : asset) (h : string) :
  extract_sha256 a = Ok h <-> digest a = Some (JStr ("sha256:" ++ h)).
Proof.
  split; [apply extract_sha256_inv | apply extract_sha256_ok].
Qed.

Lemma extract_sha256_iff_witness :
  extract_sha256 {| name := Some "a"; digest := Some (JStr "sha256:sha256:ab") |}
  = Ok "sha256:ab".
Proof.
  apply (proj2 (extract_sha256_iff
                  {| name := Some "a"; digest := Some (JStr "sha256:sha256:ab") |}
                  "sha256:ab")).
  reflexivity.
Defined.

(** X5. The version search finds [v] exactly when [v] is the version of the
    leftmost [Keyguard-<number>.<number>.<number>-linux] in the name, and
    finds nothing exactly when the name holds no such text. *)
Theorem re_search_version_iff (n : string) :
  (forall v, re_search_version n = Some v <-> first_version n v)
  /\ (re_search_version n = None <-> forall k v, ~ occurs_at n k v).
Proof.
  split.
  - intros v; split;
      [apply re_search_version_first | apply first_version_search].
  - split; [apply re_search_version_none | apply no_occurrence_search].
Qed.

Lemma re_search_version_iff_witness :
  first_version "Keyguard-10.0.12-linux-x86_64.tar.gz" "10.0.12"
  /\ forall k v, ~ occurs_at "Keyguard-2.3-linux-x86_64.tar.gz" k v.
Proof.
  split.
  - apply (proj1 (proj1 (re_search_version_iff
                           "Keyguard-10.0.12-linux-x86_64.tar.gz") "10.0.12")).
    reflexivity.
  - apply (proj1 (proj2 (re_search_version_iff
                           "Keyguard-2.3-linux-x86_64.tar.gz"))).
    reflexivity.
Defined.

End ExtractionMore.

(* ================================================================= *)
(** ** More on the manifest update *)

Section ManifestUpdateMore.

(** X6. With release strings free of line feeds and backslashes the update
    succeeds exactly when no field it looks for is absent; nothing else can
    make it fail. *)
Theorem update_pkgbuild_succeeds_iff (c v t h1 h2 : string) :
  plain v = true -> plain t = true -> plain h1 = true -> plain h2 = true ->
  ((exists out, update_pkgbuild c v t h1 h2 = Ok out)
   <-> forall f, required c v f = true -> absent f c = false).
Proof.
  intros Hv Ht H1 H2; split.
  - intros [out H] f Hr.
    now apply (update_pkgbuild_ok_present c v t h1 h2 out f).
  - intros Hp. eexists. now apply update_pkgbuild_ok_iff.
Qed.

Lemma update_pkgbuild_succeeds_iff_witness :
  (exists out,
      update_pkgbuild manifest_no_pkgrel "2.3.2" "v2.3.2" "abc" "def" = Ok out)
  <-> forall f, required manifest_no_pkgrel "2.3.2" f = true ->
                absent f manifest_no_pkgrel = false.
Proof.
  apply (update_pkgbuild_succeeds_iff manifest_no_pkgrel "2.3.2" "v2.3.2"
           "abc" "def"); reflexivity.
Defined.

Lemma field_eq_pkgrel (f : field) : f = Pkgrel \/ f <> Pkgrel.
Proof. destruct f; (now left) || (right; discriminate). Qed.

Lemma field_lines_fullmatch (f : field) (c l : string) :
  In l (field_lines f c) -> fullmatch (field_re f) l = true.
Proof. intros H; now apply filter_In in H. Qed.

(** X7. Reading back: after a successful update with plain strings and a
    non-empty version, the version found by the [pkgver] pattern is the new
    one, and every line of the [pkgver], [_releaseTag] and checksum fields,
    of which there is at least one each, carries the new value. *)
Theorem update_pkgbuild_read_back (c v t h1 h2 out : string) :
  plain v = true -> plain t = true -> plain h1 = true -> plain h2 = true ->
  v <> "" ->
  update_pkgbuild c v t h1 h2 = Ok out ->
  re_search pkgver_re out = Some v
  /\ forall f, f <> Pkgrel ->
       field_lines f out <> []
       /\ forall l, In l (field_lines f out) ->
                    l = new_line false v t h1 h2 f "".
Proof.
  intros Hv Ht H1 H2 Hne H.
  assert (Hfl : forall f, field_lines f out
                          = map (rewrite_line (version_changes c v) v t h1 h2)
                                (field_lines f c)).
  { intros f. apply field_lines_updated; auto. }
  assert (Hall : forall f, f <> Pkgrel ->
            field_lines f out <> []
            /\ forall l, In l (field_lines f out) ->
                         l = new_line false v t h1 h2 f "").
  { intros f Hf. split.
    - assert (Hr : required c v f = true)
        by (destruct f; try reflexivity; congruence).
      pose proof (update_pkgbuild_ok_present c v t h1 h2 out f Hv Ht H1 H2 H Hr)
        as Hp.
      apply absent_field_lines in Hp. rewrite (Hfl f).
      destruct (field_lines f c); [congruence | discriminate].
    - intros l Hin. rewrite (Hfl f) in Hin.
      apply in_map_iff in Hin as [l' [<- Hin]].
      rewrite (rewrite_line_field _ v t h1 h2 f l'
                 (field_lines_fullmatch f c l' Hin)).
      destruct f; try reflexivity; congruence. }
  split; [|exact Hall].
  destruct (Hall Pkgver ltac:(discriminate)) as [Hn Hl].
  unfold re_search. rewrite find_filter.
  change (filter (fullmatch pkgver_re) (lines out))
    with (field_lines Pkgver out).
  destruct (field_lines Pkgver out) as [|l0 rest]; [congruence|].
  cbn [hd_error]. rewrite dotplus_pkgver.
  rewrite (Hl l0 (or_introl eq_refl)). reflexivity.
Qed.

Lemma update_pkgbuild_read_back_witness :
  re_search pkgver_re manifest_2_3_3 = Some "2.3.3"
  /\ forall f, f <> Pkgrel ->
       field_lines f manifest_2_3_3 <> []
       /\ forall l, In l (field_lines f manifest_2_3_3) ->
                    l = new_line false "2.3.3" "v2.3.3" "abc123..." "def456..."
                                 f "".
Proof.
  apply (update_pkgbuild_read_back manifest_2_3_2 "2.3.3" "v2.3.3"
           "abc123..." "def456..." manifest_2_3_3); try reflexivity.
  discriminate.
Defined.

(** X8. With release strings free of line feeds and backslashes, a manifest
    that is up to date is returned unchanged: if the [pkgver], [_releaseTag]
    and checksum fields are present and every one of their lines already
    carries the new value, the update returns the manifest itself, whatever
    its [pkgrel]. *)
Theorem update_pkgbuild_up_to_date (c v t h1 h2 : string) :
  plain v = true -> plain t = true -> plain h1 = true -> plain h2 = true ->
  (forall f, f <> Pkgrel ->
     field_lines f c <> []
     /\ forall l, In l (field_lines f c) -> l = new_line false v t h1 h2 f "") ->
  update_pkgbuild c v t h1 h2 = Ok c.
Proof.
  intros Hv Ht H1 H2 Hup.
  assert (Hsame : version_changes c v = false).
  { unfold version_changes.
    destruct (Hup Pkgver ltac:(discriminate)) as [Hn Hl].
    destruct (field_lines Pkgver c) as [|l0 rest]; [congruence|].
    rewrite (Hl l0 (or_introl eq_refl)). unfold new_line.
    change (drop 7 ("pkgver=" ++ v)) with v. now rewrite String.eqb_refl. }
  rewrite update_pkgbuild_ok_iff; try assumption.
  - f_equal. transitivity (join (lines c)); [|apply join_lines]. f_equal.
    transitivity (map (fun l => l) (lines c)); [|apply map_id].
    apply map_ext_in; intros l Hin. rewrite Hsame.
    destruct (field_or_other l) as [[f Hf]|Ho].
    + rewrite (rewrite_line_field false v t h1 h2 f l Hf).
      destruct (field_eq_pkgrel f) as [->|Hnp]; [reflexivity|].
      destruct (Hup f Hnp) as [_ Hl].
      assert (Hl' : l = new_line false v t h1 h2 f "").
      { apply Hl. apply filter_In; auto. }
      rewrite Hl' at 2. destruct f; try reflexivity; congruence.
    + now apply rewrite_line_other.
  - intros f Hr. apply absent_field_lines.
    destruct (field_eq_pkgrel f) as [->|Hnp].
    + simpl in Hr. congruence.
    + now destruct (Hup f Hnp).
Qed.

Lemma update_pkgbuild_up_to_date_witness :
  update_pkgbuild manifest_current "2.3.3" "v2.3.3" "abc" "def"
  = Ok manifest_current.
Proof.
  apply (update_pkgbuild_up_to_date manifest_current "2.3.3" "v2.3.3"
           "abc" "def"); try reflexivity.
  intros f Hf; destruct f; try congruence;
    (split; [discriminate | simpl; intros l [<-|[]]; reflexivity]).
Defined.

(** X9. The pkgrel law in general.  With plain strings, the first [pkgver]
    line of the manifest alone decides: when the text after [pkgver=] on
    that line equals the new version, the [pkgrel] lines of the result are
    those of the manifest; otherwise each of them has become [pkgrel=1]. *)
Theorem update_pkgbuild_pkgrel (c v t h1 h2 out l0 : string) (rest : list string) :
  plain v = true -> plain t = true -> plain h1 = true -> plain h2 = true ->
  update_pkgbuild c v t h1 h2 = Ok out ->
  field_lines Pkgver c = l0 :: rest ->
  field_lines Pkgrel out
  = if String.eqb (drop 7 l0) v
    then field_lines Pkgrel c
    else map (fun _ => "pkgrel=1") (field_lines Pkgrel c).
Proof.
  intros Hv Ht H1 H2 H Hpv.
  assert (Hne : v <> "" \/ Pkgrel <> Pkgver) by (right; discriminate).
  rewrite (field_lines_updated c v t h1 h2 out Pkgrel Hv Ht H1 H2 Hne H).
  unfold version_changes. rewrite Hpv.
  assert (Hm : forall b,
             map (rewrite_line b v t h1 h2) (field_lines Pkgrel c)
             = map (fun l => new_line b v t h1 h2 Pkgrel l)
                   (field_lines Pkgrel c)).
  { intros b. apply map_ext_in; intros l Hin.
    apply rewrite_line_field. now apply (field_lines_fullmatch Pkgrel c). }
  rewrite Hm.
  destruct (String.eqb (drop 7 l0) v); cbn [negb new_line];
    [apply map_id | reflexivity].
Qed.

Lemma update_pkgbuild_pkgrel_witness :
  field_lines Pkgrel
    (join ["pkgver=2.3.3"; "pkgver=2.3.3"; "pkgrel=4"; "pkgrel=9";
           "_releaseTag='v2.3.3'"; "sha256sums_x86_64=('abc')";
           "sha256sums_aarch64=('def')"])
  = if String.eqb (drop 7 "pkgver=2.3.3") "2.3.3"
    then field_lines Pkgrel manifest_first_pkgver_current
    else map (fun _ => "pkgrel=1")
             (field_lines Pkgrel manifest_first_pkgver_current).
Proof.
  apply (update_pkgbuild_pkgrel manifest_first_pkgver_current "2.3.3" "v2.3.3"
           "abc" "def" _ "pkgver=2.3.3" ["pkgver=2.0.0"]); reflexivity.
Defined.

Lemma lines_snoc_nl (s : string) : lines (s ++ nl) = (lines s ++ [""])%list.
Proof.
  rewrite <- (sapp_nil_r (s ++ nl)), sapp_assoc.
  apply (lines_app_nl s "").
Qed.

(** X10. A final line feed is kept: whatever the replacement strings, the
    result of a successful update of a manifest that ends with a line feed
    ends with a line feed. *)
Theorem update_pkgbuild_keeps_final_newline (c v t h1 h2 out : string) :
  update_pkgbuild c v t h1 h2 = Ok out ->
  endswith c nl = true -> endswith out nl = true.
Proof.
  intros H Hc.
  apply endswith_iff in Hc as [c0 ->].
  destruct (update_pkgbuild_pieces _ v t h1 h2 out H) as [G [-> HG]].
  rewrite lines_snoc_nl, map_app; cbn [map].
  rewrite (HG "" eq_refl eq_refl).
  rewrite join_app;
    [|apply map_not_nil, lines_not_nil | discriminate].
  cbn [join]. rewrite sapp_nil_r. apply endswith_app.
Qed.

Lemma update_pkgbuild_keeps_final_newline_witness :
  endswith manifest_2_3_3 nl = true.
Proof.
  apply (update_pkgbuild_keeps_final_newline manifest_2_3_2 "2.3.3" "v2.3.3"
           "abc123..." "def456..." manifest_2_3_3); reflexivity.
Defined.

Lemma parse_template_prefix_eq (p s1 s2 : string) :
  no_backslash p = true ->
  parse_template_from MText s1 = parse_template_from MText s2 ->
  parse_template_from MText (p ++ s1) = parse_template_from MText (p ++ s2).
Proof.
  unfold no_backslash; intros Hp Hs.
  induction p as [|c p IH]; simpl in *; [exact Hs|].
  apply andb_true_iff in Hp as [Hc Hp]. rewrite Hc.
  now rewrite (IH Hp).
Qed.

Lemma parse_template_prefix_none (p s : string) :
  no_backslash p = true ->
  parse_template_from MText s = None ->
  parse_template_from MText (p ++ s) = None.
Proof.
  unfold no_backslash; intros Hp Hs.
  induction p as [|c p IH]; simpl in *; [exact Hs|].
  apply andb_true_iff in Hp as [Hc Hp]. rewrite Hc.
  now rewrite (IH Hp).
Qed.

Lemma substitute_template_eq (p : line_re) (r r' fld content : string) :
  parse_template r = parse_template r' ->
  substitute p r fld content = substitute p r' fld content.
Proof. unfold substitute, re_subn; now intros ->. Qed.

Lemma substitute_bad_template (p : line_re) (r fld content : string) :
  parse_template r = None -> substitute p r fld content = Raise ReError.
Proof. unfold substitute, re_subn; now intros ->. Qed.

Lemma no_backslash_app (a b : string) :
  no_backslash (a ++ b) = no_backslash a && no_backslash b.
Proof. apply all_chars_app. Qed.

Lemma update_pkgbuild_tag_template (c v t t' h1 h2 : string) :
  parse_template ("_releaseTag='" ++ t ++ "'")
  = parse_template ("_releaseTag='" ++ t' ++ "'") ->
  update_pkgbuild c v t h1 h2 = update_pkgbuild c v t' h1 h2.
Proof.
  intros Ht. unfold update_pkgbuild.
  destruct (re_search pkgver_re c) as [cur|]; [|reflexivity].
  destruct (substitute pkgver_re ("pkgver=" ++ v) "pkgver" c) as [c1|];
    [|reflexivity].
  cbn [bind].
  destruct (if negb (cur =? v)%string
            then substitute pkgrel_re "pkgrel=1" "pkgrel" c1
            else Ok c1) as [c2|]; [|reflexivity].
  cbn [bind].
  now rewrite (substitute_template_eq releaseTag_re _ _ "_releaseTag" c2 Ht).
Qed.

(** X11. The release tag is used as a replacement template of [re.subn]: a
    backslash escape in it ([\a \b \f \n \r \t \v]) is written to the
    manifest as the character it stands for.  The update with a tag that
    holds such an escape, after a part without backslash, is the update with
    the tag that holds the character itself. *)
Theorem update_pkgbuild_tag_escape
        (c v h1 h2 p q : string) (e ch : ascii) :
  no_backslash p = true ->
  escape_char e = Some ch -> ch <> backslash ->
  update_pkgbuild c v (p ++ escape e ++ q) h1 h2
  = update_pkgbuild c v (p ++ String ch q) h1 h2.
Proof.
  intros Hp He Hch. apply update_pkgbuild_tag_template.
  unfold parse_template.
  replace ("_releaseTag='" ++ (p ++ escape e ++ q) ++ "'")
    with (("_releaseTag='" ++ p) ++ String backslash (String e (q ++ "'")))
    by (unfold escape; simpl; now rewrite !sapp_assoc).
  replace ("_releaseTag='" ++ (p ++ String ch q) ++ "'")
    with (("_releaseTag='" ++ p) ++ String ch (q ++ "'"))
    by (simpl; now rewrite !sapp_assoc).
  apply parse_template_prefix_eq.
  - rewrite no_backslash_app, Hp. reflexivity.
  - assert (Hne : Ascii.eqb ch backslash = false)
      by (now apply Ascii.eqb_neq).
    unfold escape_char in He.
    cbn [parse_template_from]. rewrite Ascii.eqb_refl, Hne. cbn [negb].
    unfold escape_char.
    repeat match type of He with
           | (if Ascii.eqb e ?x then _ else _) = _ =>
               destruct (Ascii.eqb_spec e x) as [->|_];
               [injection He as <-; reflexivity|]
           end.
    discriminate He.
Qed.

Lemma update_pkgbuild_tag_escape_witness :
  update_pkgbuild manifest_2_3_2 "2.3.3" ("v2.3.3" ++ escape "n" ++ "# rebuilt")
                  "abc" "def"
  = update_pkgbuild manifest_2_3_2 "2.3.3" ("v2.3.3" ++ String LF "# rebuilt")
                    "abc" "def".
Proof.
  apply (update_pkgbuild_tag_escape manifest_2_3_2 "2.3.3" "abc" "def"
           "v2.3.3" "# rebuilt" "n" LF); try reflexivity.
  discriminate.
Defined.

Lemma letter_not_digit (d : ascii) :
  is_ascii_letter d = true -> is_digit d = false /\ Ascii.eqb d "0" = false.
Proof.
  unfold is_ascii_letter, is_digit; intros H. split.
  - apply orb_true_iff in H as [H|H];
      apply andb_true_iff in H as [H1 H2];
      apply Nat.leb_le in H1, H2;
      apply andb_false_iff; right; apply Nat.leb_gt; lia.
  - destruct (Ascii.eqb_spec d "0") as [->|]; [discriminate H | reflexivity].
Qed.

Lemma parse_template_unknown_letter (d : ascii) (q : string) :
  is_ascii_letter d = true -> escape_char d = None -> d <> "g"%char ->
  parse_template_from MText (String backslash (String d q)) = None.
Proof.
  intros Hl He Hg.
  destruct (letter_not_digit d Hl) as [Hd H0].
  cbn [parse_template_from]. rewrite Ascii.eqb_refl. cbn [negb].
  apply Ascii.eqb_neq in Hg. now rewrite Hg, H0, Hd, He, Hl.
Qed.

(** X12. A release tag whose first backslash (the part before it holds
    none) is followed by an ASCII letter that is no known escape and not [g]
    makes the update raise [re.error]: the replacement template of the
    [_releaseTag] substitution does not compile.  This happens, for a
    version free of line feeds and backslashes, once the [pkgver] and
    [pkgrel] steps have passed ([pkgver] present, [pkgrel] present when the
    version changes), whether or not the manifest has a [_releaseTag]
    line. *)
Theorem update_pkgbuild_tag_bad_escape
        (c v h1 h2 p q : string) (d : ascii) :
  plain v = true -> no_backslash p = true ->
  is_ascii_letter d = true -> escape_char d = None -> d <> "g"%char ->
  absent Pkgver c = false ->
  (required c v Pkgrel = true -> absent Pkgrel c = false) ->
  update_pkgbuild c v (p ++ escape d ++ q) h1 h2 = Raise ReError.
Proof.
  intros Hv Hp Hl He Hg Hpv Hpr.
  assert (Hbad : forall content,
             substitute releaseTag_re
               ("_releaseTag='" ++ (p ++ escape d ++ q) ++ "'")
               "_releaseTag" content = Raise ReError).
  { intros content. apply substitute_bad_template. unfold parse_template.
    replace ("_releaseTag='" ++ (p ++ escape d ++ q) ++ "'")
      with (("_releaseTag='" ++ p) ++ String backslash (String d (q ++ "'")))
      by (unfold escape; simpl; now rewrite !sapp_assoc).
    apply parse_template_prefix_none.
    - rewrite no_backslash_app, Hp. reflexivity.
    - now apply parse_template_unknown_letter. }
  unfold update_pkgbuild, re_search. rewrite find_filter.
  change (filter (fullmatch pkgver_re) (lines c)) with (field_lines Pkgver c).
  pose proof Hpv as Hpv'. apply absent_field_lines in Hpv'.
  destruct (field_lines Pkgver c) as [|l0 rest] eqn:El; [congruence|].
  cbn [hd_error].
  assert (H1 : substitute pkgver_re ("pkgver=" ++ v) "pkgver" c
               = Ok (join (map (replace_line pkgver_re ("pkgver=" ++ v))
                               (lines c)))).
  { rewrite <- (join_lines c) at 1.
    rewrite (substitute_plain pkgver_re ("pkgver=" ++ v) "pkgver" (lines c)
               (lines_not_nil c) (lines_no_lf c));
      [|rewrite plain_app, Hv; reflexivity].
    rewrite existsb_filter.
    change (filter (fullmatch pkgver_re) (lines c))
      with (field_lines Pkgver c).
    now rewrite El. }
  rewrite H1. cbn [bind]. rewrite dotplus_pkgver.
  destruct (negb (drop 7 l0 =? v)%string) eqn:Eb;
    [|cbn [bind]; now rewrite Hbad].
  assert (Hr : required c v Pkgrel = true).
  { unfold required, version_changes. now rewrite El. }
  specialize (Hpr Hr).
  rewrite (substitute_plain pkgrel_re "pkgrel=1" "pkgrel");
    [| apply map_not_nil, lines_not_nil
     | apply replace_line_no_lf;
       [apply plain_no_lf; rewrite plain_app, Hv; reflexivity
       | apply lines_no_lf]
     | reflexivity].
  change pkgrel_re with (field_re Pkgrel).
  change (replace_line pkgver_re ("pkgver=" ++ v))
    with (replace_line (field_re Pkgver) (new_line true v "" "" "" Pkgver "")).
  rewrite existsb_replace_other by congruence.
  rewrite absent_existsb in Hpr. apply negb_false_iff in Hpr. rewrite Hpr.
  cbn [bind]. now rewrite Hbad.
Qed.

Lemma update_pkgbuild_tag_bad_escape_witness :
  update_pkgbuild manifest_pkgver_only "2.3.2" ("v2.3.3" ++ escape "d" ++ "x")
                  "abc" "def"
  = Raise ReError.
Proof.
  apply (update_pkgbuild_tag_bad_escape manifest_pkgver_only "2.3.2" "abc" "def"
           "v2.3.3" "x" "d"); try reflexivity.
  - discriminate.
  - discriminate.
Defined.

(** X16. The manifest invariant is kept: with plain strings and a non-empty
    version, the result of an update has as many lines of each field as the
    manifest had; in particular a manifest with each field on exactly one
    line stays one. *)
Theorem update_pkgbuild_keeps_well_formed (c v t h1 h2 out : string) :
  plain v = true -> plain t = true -> plain h1 = true -> plain h2 = true ->
  v <> "" ->
  update_pkgbuild c v t h1 h2 = Ok out ->
  (forall f, List.length (field_lines f out) = List.length (field_lines f c))
  /\ (well_formed c -> well_formed out).
Proof.
  intros Hv Ht H1 H2 Hne H.
  assert (Hlen : forall f, List.length (field_lines f out)
                           = List.length (field_lines f c)).
  { intros f.
    rewrite (field_lines_updated c v t h1 h2 out f Hv Ht H1 H2
               (or_introl Hne) H).
    apply length_map. }
  split; [exact Hlen|].
  intros Hwf f. rewrite Hlen. apply Hwf.
Qed.

Lemma update_pkgbuild_keeps_well_formed_witness :
  (forall f, List.length (field_lines f manifest_2_3_3)
             = List.length (field_lines f manifest_2_3_2))
  /\ (well_formed manifest_2_3_2 -> well_formed manifest_2_3_3).
Proof.
  apply (update_pkgbuild_keeps_well_formed manifest_2_3_2 "2.3.3" "v2.3.3"
           "abc123..." "def456..." manifest_2_3_3); try reflexivity.
  discriminate.
Defined.

(** X17. With a tag and hashes free of line feeds and backslashes, an empty
    version is written as [pkgver=], which the [pkgver] pattern does not
    match ([.+] wants a character): an update that succeeds leaves no
    [pkgver] line in its result, and every later update of that result
    fails with "pkgver not found". *)
Theorem update_pkgbuild_empty_version (c t h1 h2 out : string) :
  plain t = true -> plain h1 = true -> plain h2 = true ->
  update_pkgbuild c "" t h1 h2 = Ok out ->
  field_lines Pkgver out = []
  /\ forall v' t' h1' h2',
       update_pkgbuild out v' t' h1' h2'
       = Raise (ValueError "pkgver not found in PKGBUILD").
Proof.
  intros Ht H1 H2 H.
  assert (Hnone : field_lines Pkgver out = []).
  { unfold field_lines.
    rewrite (update_pkgbuild_ok_lines c "" t h1 h2 out eq_refl Ht H1 H2 H).
    generalize (lines c); intros ls.
    induction ls as [|l ls IH]; [reflexivity|]. cbn [map filter].
    rewrite IH.
    replace (fullmatch (field_re Pkgver)
               (rewrite_line (version_changes c "") "" t h1 h2 l))
      with false; [reflexivity|].
    symmetry. destruct (field_or_other l) as [[g Hg]|Ho].
    - rewrite (rewrite_line_field _ "" t h1 h2 g l Hg).
      destruct g; try (apply fullmatch_new_line_other;
                       [discriminate | exact Hg]).
      reflexivity.
    - rewrite (rewrite_line_other _ "" t h1 h2 l Ho).
      now apply other_line_miss. }
  split; [exact Hnone|].
  intros v' t' h1' h2'. unfold update_pkgbuild, re_search.
  rewrite find_filter.
  change (filter (fullmatch pkgver_re) (lines out))
    with (field_lines Pkgver out).
  now rewrite Hnone.
Qed.

Lemma update_pkgbuild_empty_version_witness :
  field_lines Pkgver manifest_unversioned = []
  /\ forall v' t' h1' h2',
       update_pkgbuild manifest_unversioned v' t' h1' h2'
       = Raise (ValueError "pkgver not found in PKGBUILD").
Proof.
  apply (update_pkgbuild_empty_version manifest_2_3_2 "v2.3.3" "abc" "def");
    reflexivity.
Defined.

(** X18. Only the x86_64 name is parsed: the name of the aarch64 asset is
    used for nothing but the message of its own digest error.  Two releases
    with the same tag and the same chosen x86_64 asset, whose chosen aarch64
    assets have the same well-formed digest, give the same result, whatever
    version the aarch64 names show. *)
Theorem extract_release_info_aarch64_name
        (r r' : release) (tag : string) (a b b' : asset) :
  tag_name r = Some tag -> tag_name r' = Some tag -> tag <> "" ->
  last_linux_assets (get_assets r) a b ->
  last_linux_assets (get_assets r') a b' ->
  digest b = digest b' ->
  sha256_digest b = true ->
  extract_release_info r = extract_release_info r'.
Proof.
  intros Ht Ht' Hne Hl Hl' Hd Hs.
  rewrite (extract_release_info_selected r tag a b Ht Hne Hl).
  rewrite (extract_release_info_selected r' tag a b' Ht' Hne Hl').
  destruct (last_linux_assets_in _ _ _ Hl) as [_ [_ Hb]].
  destruct (last_linux_assets_in _ _ _ Hl') as [_ [_ Hb']].
  rewrite (extract_sha256_cases b _ (is_aarch64_name b Hb)).
  rewrite (extract_sha256_cases b' _ (is_aarch64_name b' Hb')).
  unfold sha256_digest in Hs. unfold get_digest in *. rewrite <- Hd.
  destruct (digest b) as [[|d]|]; cbv beta iota in Hs;
    [discriminate Hs | | discriminate Hs].
  rewrite Hs. reflexivity.
Qed.

Lemma extract_release_info_aarch64_name_witness :
  extract_release_info release_2_3_3
  = extract_release_info
      {| tag_name := Some "v2.3.3";
         assets := Some [asset_x86_64; asset_aarch64_other_version] |}.
Proof.
  apply (extract_release_info_aarch64_name
           release_2_3_3
           {| tag_name := Some "v2.3.3";
              assets := Some [asset_x86_64; asset_aarch64_other_version] |}
           "v2.3.3" asset_x86_64 asset_aarch64 asset_aarch64_other_version);
    try reflexivity.
  - discriminate.
  - exists [], []; split; reflexivity.
  - exists [], []; split; reflexivity.
Defined.

End ManifestUpdateMore.

(* ================================================================= *)
(** ** The entry point: what a run does *)

(** The update applied to its own result (plain strings, version not empty). *)
Lemma update_pkgbuild_again (c v t h1 h2 out : string) :
  plain v = true -> plain t = true -> plain h1 = true -> plain h2 = true ->
  v <> "" ->
  update_pkgbuild c v t h1 h2 = Ok out ->
  update_pkgbuild out v t h1 h2 = Ok out.
Proof.
  intros Hv Ht H1 H2 Hne H.
  pose proof (update_pkgbuild_ok_lines c v t h1 h2 out Hv Ht H1 H2 H) as Hl.
  assert (Hfl : forall f, field_lines f out
                          = map (rewrite_line (version_changes c v) v t h1 h2)
                                (field_lines f c)).
  { intros f. apply field_lines_updated; auto. }
  assert (Hpv : absent Pkgver c = false).
  { apply (update_pkgbuild_ok_present c v t h1 h2 out Pkgver); auto. }
  assert (Hsame : version_changes out v = false).
  { unfold version_changes. rewrite (Hfl Pkgver).
    apply absent_field_lines in Hpv.
    destruct (field_lines Pkgver c) as [|l0 rest] eqn:E; [congruence|].
    assert (Hl0 : fullmatch (field_re Pkgver) l0 = true).
    { assert (Hin : In l0 (field_lines Pkgver c)) by (rewrite E; now left).
      now apply filter_In in Hin. }
    cbn [map].
    rewrite (rewrite_line_field _ v t h1 h2 Pkgver l0 Hl0).
    unfold new_line. change (drop 7 ("pkgver=" ++ v)) with v.
    now rewrite String.eqb_refl. }
  rewrite update_pkgbuild_ok_iff; try assumption.
  - rewrite Hsame, Hl, map_map. f_equal.
    rewrite <- (join_lines out), Hl. f_equal.
    apply map_ext; intros l. now apply rewrite_line_twice.
  - intros f Hr.
    assert (Hrc : required c v f = true).
    { destruct f; try reflexivity. simpl in Hr. congruence. }
    pose proof (update_pkgbuild_ok_present c v t h1 h2 out f Hv Ht H1 H2 H Hrc)
      as Hp.
    apply absent_field_lines in Hp. apply absent_field_lines.
    rewrite (Hfl f). destruct (field_lines f c); [congruence | discriminate].
Qed.

Lemma all_chars_impl (f g : ascii -> bool) (s : string) :
  (forall c, f c = true -> g c = true) ->
  all_chars f s = true -> all_chars g s = true.
Proof.
  intros Hfg; induction s as [|c s IH]; simpl; [reflexivity|].
  intros H; apply andb_true_iff in H as [Hc Hs].
  now rewrite (Hfg c Hc), IH.
Qed.

Lemma is_number_plain (x : string) :
  is_number x = true -> plain x = true /\ x <> "".
Proof.
  unfold is_number; intros H. apply andb_true_iff in H as [Hne Hd]. split.
  - revert Hd. apply all_chars_impl. intros c Hc.
    destruct (Ascii.eqb_spec c LF) as [->|_]; [discriminate Hc|].
    destruct (Ascii.eqb_spec c backslash) as [->|_]; [discriminate Hc|].
    reflexivity.
  - intros ->. discriminate Hne.
Qed.

(** A version is a plain, non-empty string. *)
Lemma is_version_plain (v : string) :
  is_version v -> plain v = true /\ v <> "".
Proof.
  intros [x [y [z [-> [Hx [Hy Hz]]]]]].
  destruct (is_number_plain x Hx) as [Px Nx].
  destruct (is_number_plain y Hy) as [Py _].
  destruct (is_number_plain z Hz) as [Pz _].
  unfold version_text. split.
  - rewrite !plain_app, Px, Py, Pz. reflexivity.
  - destruct x; [congruence | discriminate].
Qed.

Section MainFacts.

Context {E : Env}.

(** [main], stage by stage. *)
Lemma main_stages (input output : string) (st : state) :
  main input output st =
  match read_text (st_world st) input with
  | None =>
      (inr (ReadError input),
       with_output st (st_world st) ["Reading PKGBUILD from: " ++ input])
  | Some content =>
      match fetch_latest_release (st_world st) with
      | None =>
          (inr FetchError,
           with_output st (st_world st)
             ["Reading PKGBUILD from: " ++ input;
              "Fetching latest release from GitHub..."])
      | Some r =>
          match extract_release_info r with
          | Raise e =>
              (inr (Raised e),
               with_output st (st_world st)
                 ["Reading PKGBUILD from: " ++ input;
                  "Fetching latest release from GitHub..."])
          | Ok info =>
              match update_pkgbuild content (fst (fst (fst info)))
                                    (snd (fst (fst info))) (snd (fst info))
                                    (snd info) with
              | Raise e =>
                  (inr (Raised e),
                   with_output st (st_world st) (progress_lines input info))
              | Ok out =>
                  let (w, completed) := write_text (st_world st) output out in
                  if completed
                  then (inl 0,
                        with_output st w
                          (progress_lines input info
                           ++ ["Writing updated PKGBUILD to: " ++ output;
                               "Done!"]))
                  else (inr (WriteError output),
                        with_output st w
                          (progress_lines input info
                           ++ ["Writing updated PKGBUILD to: " ++ output]))
              end
          end
      end
  end.
Proof.
  unfold main, pbind, print, open_read, fetch, call, open_write, ret,
    with_output; cbn [st_world st_stdout].
  destruct (read_text (st_world st) input) as [content|]; [|reflexivity].
  cbn [st_world st_stdout].
  destruct (fetch_latest_release (st_world st)) as [r|];
    [|cbn [st_world st_stdout]; now rewrite <- ?app_assoc].
  destruct (extract_release_info r) as [[[[v t] h1] h2]|e];
    [|cbn [st_world st_stdout]; now rewrite <- ?app_assoc].
  cbn [fst snd st_world st_stdout progress_lines].
  destruct (update_pkgbuild content v t h1 h2) as [out|e];
    [|cbn [st_world st_stdout]; now rewrite <- ?app_assoc].
  cbn [st_world st_stdout].
  destruct (write_text (st_world st) output out) as [w [|]];
    cbn [st_world st_stdout]; now rewrite <- ?app_assoc.
Qed.

(** X13. A run that fails before the write leaves the world as it found
    it: whenever [main] ends with an exception other than a failed write of
    the output file (unreadable input, failed fetch, a [ValueError] of the
    extraction or of the update), nothing has been written. *)
Theorem main_failure_keeps_world
        (input output : string) (st st' : state) (e : uncaught) :
  main input output st = (inr e, st') ->
  e <> WriteError output ->
  st_world st' = st_world st.
Proof.
  rewrite main_stages. intros H Hne.
  destruct (read_text (st_world st) input) as [content|];
    [|injection H as _ <-; reflexivity].
  destruct (fetch_latest_release (st_world st)) as [r|];
    [|injection H as _ <-; reflexivity].
  destruct (extract_release_info r) as [info|e0];
    [|injection H as _ <-; reflexivity].
  destruct (update_pkgbuild content _ _ _ _) as [out|e0];
    [|injection H as _ <-; reflexivity].
  destruct (write_text (st_world st) output out) as [w [|]];
    [discriminate H|].
  injection H as <- _. congruence.
Qed.

(** X14. A run that returns has done everything: [main] returns only the
    code 0, and then the input was read, the release fetched and extracted,
    the text handed to the write of the output file is [update_pkgbuild] of
    the text read and the extracted values, the write completed, and the
    nine progress lines were printed, ["Done!"] last. *)
Theorem main_returns
        (input output : string) (st st' : state) (code : nat) :
  main input output st = (inl code, st') ->
  code = 0
  /\ exists content r info out,
      read_text (st_world st) input = Some content
      /\ fetch_latest_release (st_world st) = Some r
      /\ extract_release_info r = Ok info
      /\ update_pkgbuild content (fst (fst (fst info))) (snd (fst (fst info)))
                         (snd (fst info)) (snd info) = Ok out
      /\ write_text (st_world st) output out = (st_world st', true)
      /\ st_stdout st'
         = (st_stdout st ++ progress_lines input info
            ++ [("Writing updated PKGBUILD to: " ++ output)%string;
                "Done!"])%list.
Proof.
  rewrite main_stages. intros H.
  destruct (read_text (st_world st) input) as [content|] eqn:Er;
    [|discriminate H].
  destruct (fetch_latest_release (st_world st)) as [r|] eqn:Ef;
    [|discriminate H].
  destruct (extract_release_info r) as [info|e0] eqn:Ee; [|discriminate H].
  destruct (update_pkgbuild content _ _ _ _) as [out|e0] eqn:Eu;
    [|discriminate H].
  destruct (write_text (st_world st) output out) as [w [|]] eqn:Ew;
    [|discriminate H].
  injection H as <- <-. split; [reflexivity|].
  exists content, r, info, out. unfold with_output; cbn [st_world st_stdout].
  repeat split; auto.
Qed.

(** X15. Running the tool again in place changes nothing more, as long as
    the release is the same.  Assume that a completed write of the file is
    what a later read of it returns.  After a run of [main] with the same
    path as input and output that returned, a second run, with the release
    unchanged and tag and hashes free of line feeds and backslashes, gets as
    far as the write, and what it writes is the text the file already
    holds. *)
Theorem main_again_in_place
        (path : string) (st st1 : state) (code : nat)
        (r : release) (v t h1 h2 : string) :
  (forall w text w', write_text w path text = (w', true) ->
                     read_text w' path = Some text) ->
  main path path st = (inl code, st1) ->
  fetch_latest_release (st_world st) = Some r ->
  fetch_latest_release (st_world st1) = Some r ->
  extract_release_info r = Ok (v, t, h1, h2) ->
  plain t = true -> plain h1 = true -> plain h2 = true ->
  exists text,
    read_text (st_world st1) path = Some text
    /\ forall result st2,
         main path path st1 = (result, st2) ->
         st_world st2 = fst (write_text (st_world st1) path text)
         /\ (result = inl 0 \/ result = inr (WriteError path)).
Proof.
  intros Hrw H Hf Hf1 He Ht H1 H2.
  rewrite main_stages in H.
  destruct (read_text (st_world st) path) as [content|]; [|discriminate H].
  rewrite Hf, He in H. cbn [fst snd] in H.
  destruct (update_pkgbuild content v t h1 h2) as [out|] eqn:Hu;
    [|discriminate H].
  destruct (write_text (st_world st) path out) as [w [|]] eqn:Hw;
    [|discriminate H].
  injection H as _ Hst1.
  assert (Hw1 : w = st_world st1) by (now rewrite <- Hst1).
  rewrite Hw1 in Hw. clear Hst1 Hw1 w.
  assert (Hv : is_version v).
  { apply extract_release_info_ok_inv in He
      as [_ [_ [a [b [_ [Hv _]]]]]].
    apply re_search_version_first in Hv as [k [[pre [post [_ [_ Hv]]]] _]].
    exact Hv. }
  destruct (is_version_plain v Hv) as [Pv Nv].
  exists out. split; [now apply (Hrw _ _ _ Hw)|].
  intros result st2. rewrite main_stages.
  rewrite (Hrw _ _ _ Hw), Hf1, He. cbn [fst snd].
  rewrite (update_pkgbuild_again content v t h1 h2 out Pv Ht H1 H2 Nv Hu).
  destruct (write_text (st_world st1) path out) as [w' [|]];
    intros H; injection H as <- <-; auto.
Qed.

End MainFacts.

Lemma main_failure_keeps_world_witness :
  st_world (snd (@main (file_env (Some release_no_digest) [])
                       "PKGBUILD" "PKGBUILD"
                       (start (Some release_no_digest) [])))
  = [("PKGBUILD", manifest_2_3_2)].
Proof.
  apply (@main_failure_keeps_world (file_env (Some release_no_digest) [])
           "PKGBUILD" "PKGBUILD" (start (Some release_no_digest) []) _
           (Raised (ValueError "SHA256 digest not found for asset: Keyguard-2.3.3-linux-x86_64.tar.gz"))).
  - reflexivity.
  - discriminate.
Defined.

Lemma main_returns_witness :
  0 = 0
  /\ exists content r info out,
      @read_text env_plain (st_world start_plain) "PKGBUILD" = Some content
      /\ @fetch_latest_release env_plain (st_world start_plain) = Some r
      /\ extract_release_info r = Ok info
      /\ update_pkgbuild content (fst (fst (fst info))) (snd (fst (fst info)))
                         (snd (fst info)) (snd info) = Ok out
      /\ @write_text env_plain (st_world start_plain) "PKGBUILD.new" out
         = (st_world done_copy, true)
      /\ st_stdout done_copy
         = (st_stdout start_plain ++ progress_lines "PKGBUILD" info
            ++ [("Writing updated PKGBUILD to: " ++ "PKGBUILD.new")%string;
                "Done!"])%list.
Proof.
  apply (@main_returns env_plain "PKGBUILD" "PKGBUILD.new"
           start_plain done_copy 0).
  reflexivity.
Defined.

Lemma main_again_in_place_witness :
  exists text,
    @read_text env_plain (st_world done_in_place) "PKGBUILD" = Some text
    /\ forall result st2,
         @main env_plain "PKGBUILD" "PKGBUILD" done_in_place = (result, st2) ->
         st_world st2
         = fst (@write_text env_plain (st_world done_in_place) "PKGBUILD" text)
         /\ (result = inl 0 \/ result = inr (WriteError "PKGBUILD")).
Proof.
  apply (@main_again_in_place env_plain "PKGBUILD" start_plain done_in_place 0
           release_plain "2.3.3" "v2.3.3" "abc123..." "def456...");
    try reflexivity.
  intros w text w' H. injection H as <-.
  cbn [read_text env_plain file_env lookup_file].
  now rewrite String.eqb_refl.
Defined.

